(** * dns_manager: remote BIND / dnsmasq configuration over SSH

    A shallow embedding of [dns_manager/core.py].  The program is a linear
    sequence of remote commands, remote file transfers and string
    templating.  The remote host, the clock and the logger are the outside
    world: every interaction is recorded as an [event] together with the
    reply it received, and the world answers as a function of the
    interaction so far.  Python exceptions are an explicit [result].

    Text is modelled by [string]; a character is an 8-bit [ascii].  What a
    remote file yields when it is read is [bytes], not text.  A dict whose
    values are only ever formatted into text is a [gmap string string]
    holding each value's [str()] rendering. *)

From Stdlib Require Import String Ascii ZArith List DecimalString Bool Lia.
From stdpp Require Import base option gmap strings list.

Open Scope string_scope.
Open Scope list_scope.
Open Scope stdpp_scope.

(* ===================================================================== *)
(** ** Python text primitives used by the program *)
(* ===================================================================== *)

Module Py.

(** The double quote and the line feed, which a string literal here
    cannot hold directly. *)
Definition DQ : string := String "034"%char EmptyString.
Definition NL : string := String "010"%char EmptyString.

(** [needle in hay] on Python strings. *)
Fixpoint str_in (needle hay : string) : bool :=
  String.prefix needle hay ||
  match hay with
  | EmptyString => false
  | String _ t => str_in needle t
  end.

(** [s.endswith(suffix)]. *)
Fixpoint endswith (s suffix : string) : bool :=
  String.eqb s suffix ||
  match s with
  | EmptyString => false
  | String _ t => endswith t suffix
  end.

(** [s.split(sep)] for a one-character separator: the list is never
    empty, and an empty field is kept. *)
Fixpoint split (sep : ascii) (s : string) : list string :=
  match s with
  | EmptyString => [EmptyString]
  | String c t =>
      if Ascii.eqb c sep then EmptyString :: split sep t
      else match split sep t with
           | [] => [String c EmptyString]
           | field :: fields => String c field :: fields
           end
  end.

(** [sep.join(parts)]. *)
Definition join (sep : string) (parts : list string) : string :=
  String.concat sep parts.

(** [str(n)] for an integer. *)
Definition str_of_int (n : Z) : string :=
  NilZero.string_of_int (Z.to_int n).

(** Truth value of a string in a condition: non-empty. *)
Definition truthy (s : string) : bool :=
  match s with
  | EmptyString => false
  | String _ _ => true
  end.

(** A [bytes] object, and [s.encode()] for a text of one-byte
    characters. *)
Definition bytes : Type := list Byte.byte.

Definition encode (s : string) : bytes := list_byte_of_string s.

(** Number of occurrences of a character, used to count line breaks. *)
Fixpoint count_char (c : ascii) (s : string) : nat :=
  match s with
  | EmptyString => 0
  | String d t => (if Ascii.eqb d c then 1 else 0) + count_char c t
  end.

End Py.

Import Py.

(* ===================================================================== *)
(** ** Exceptions and results *)
(* ===================================================================== *)

(** Modelled from the spec: the module [exceptions] that declares
    [DNSConfigError] is not among the sources; the spec describes it as the
    single error kind carrying a human-readable message, so it is an
    exception whose [str()] is its message.  The other constructors are the
    built-in exceptions the code can meet: a missing dict key, a list index
    out of range, an argument of the wrong type, and whatever the transport
    or another library raises. *)
Inductive exn : Type :=
| DNSConfigError (msg : string)
| KeyError (key : string)
| IndexError
| TypeError (msg : string)
| LibraryError (msg : string).

(** [str(e)]. *)
Definition str_exn (e : exn) : string :=
  match e with
  | DNSConfigError msg => msg
  | KeyError key => "'" +:+ key +:+ "'"
  | IndexError => "list index out of range"
  | TypeError msg => msg
  | LibraryError msg => msg
  end.

Inductive result (A : Type) : Type :=
| Ok (a : A)
| Raise (e : exn).

Arguments Ok {A} a.
Arguments Raise {A} e.

Definition rbind {A B : Type} (r : result A) (f : A -> result B) : result B :=
  match r with
  | Ok a => f a
  | Raise e => Raise e
  end.

#[global] Instance result_ret : MRet result := @Ok.
#[global] Instance result_bind : MBind result := fun A B f r => rbind r f.

(** [d[key]]: a missing key raises [KeyError]. *)
Definition getitem (d : gmap string string) (key : string) : result string :=
  match d !! key with
  | Some v => Ok v
  | None => Raise (KeyError key)
  end.

(** [d.get(key, default)]. *)
Definition dict_get (d : gmap string string) (key default : string) : string :=
  match d !! key with
  | Some v => v
  | None => default
  end.

(** [l[i]] with Python's negative indices. *)
Definition list_index {A : Type} (l : list A) (i : Z) : result A :=
  let n := Z.of_nat (length l) in
  let j := (if i <? 0 then n + i else i)%Z in
  if (j <? 0)%Z then Raise IndexError
  else match l !! Z.to_nat j with
       | Some x => Ok x
       | None => Raise IndexError
       end.

(* ===================================================================== *)
(** ** The patterns of Python's [re] that [delete_zone] builds *)
(* ===================================================================== *)

Module Re.

(** The syntax of a fragment of the patterns: every pattern of the
    fragment is well formed, so [re] compiles it.  One-character matchers
    are a literal, [.] and a negated one-character class [[^c]]; each may
    be followed by [+]. *)
Inductive atom : Type :=
| Lit (c : ascii)
| AnyChar
| NotChar (c : ascii).

Inductive item : Type :=
| Once (a : atom)
| Plus (a : atom).

Definition regex : Type := list item.

Inductive token : Type :=
| TAtom (a : atom)
| TPlus.

Definition is_digit (c : ascii) : bool :=
  let n := nat_of_ascii c in (48 <=? n)%nat && (n <=? 57)%nat.

(** Characters whose meaning in a pattern is outside this fragment. *)
Definition unsupported (c : ascii) : bool :=
  existsb (Ascii.eqb c)
    ["\"%char; "^"%char; "$"%char; "*"%char; "?"%char; "|"%char;
     "("%char; ")"%char; "]"%char].

(** Lexing of a pattern.  An opening brace is a literal unless it can
    start a repetition count ([{3}], [{,2}]); a closing brace is always a
    literal. *)
Fixpoint tokens (p : string) : option (list token) :=
  match p with
  | EmptyString => Some []
  | String c rest =>
      if Ascii.eqb c "."%char then option_map (cons (TAtom AnyChar)) (tokens rest)
      else if Ascii.eqb c "+"%char then option_map (cons TPlus) (tokens rest)
      else if Ascii.eqb c "["%char then
        match rest with
        | String c1 (String d (String c2 rest')) =>
            if Ascii.eqb c1 "^"%char && Ascii.eqb c2 "]"%char
               && negb (existsb (Ascii.eqb d) ["\"%char; "]"%char; "["%char])
            then option_map (cons (TAtom (NotChar d))) (tokens rest')
            else None
        | _ => None
        end
      else if Ascii.eqb c "{"%char then
        match rest with
        | String d _ =>
            if is_digit d || Ascii.eqb d ","%char then None
            else option_map (cons (TAtom (Lit c))) (tokens rest)
        | EmptyString => Some [TAtom (Lit c)]
        end
      else if unsupported c then None
      else option_map (cons (TAtom (Lit c))) (tokens rest)
  end.

(** Attaching each [+] to the atom before it. *)
Fixpoint items (ts : list token) : option regex :=
  match ts with
  | [] => Some []
  | TPlus :: _ => None
  | TAtom a :: ts' =>
      match ts' with
      | TPlus :: ts'' => option_map (cons (Plus a)) (items ts'')
      | _ => option_map (cons (Once a)) (items ts')
      end
  end.

(** [re.compile], on the fragment: [None] for a pattern outside it. *)
Definition compile (p : string) : option regex :=
  match tokens p with
  | Some ts => items ts
  | None => None
  end.

End Re.

(* ===================================================================== *)
(** ** The outside world: remote host, clock, logger *)
(* ===================================================================== *)

Inductive open_mode : Type := ModeR | ModeW | ModeA.

Inductive log_level : Type := INFO | ERROR.

(** One interaction with the outside, with the reply it got. *)
Inductive event : Type :=
| EvConnect (hostname username : string) (password key_filename : option string)
            (reply : result unit)
| EvExec (command : string) (reply : result (string * string))
| EvWrite (path : string) (mode : open_mode) (content : string)
          (reply : result unit)
| EvRead (path : string) (reply : result bytes)
| EvClose
| EvLog (level : log_level) (msg : string).

(** The world answers each request as a function of the interaction so
    far.  [re_outside] stands for what [re.sub] raises, given bytes to
    search, for a pattern outside the modelled fragment. *)
Record world : Type := {
  on_connect : list event -> string -> string -> option string ->
               option string -> result unit;
  on_exec : list event -> string -> result (string * string);
  on_write : list event -> string -> open_mode -> string -> result unit;
  on_read : list event -> string -> result bytes;
  clock : list event -> Z;
  re_outside : string -> exn
}.

(** A computation reads the world and the history and yields the events it
    added and a value or an exception. *)
Definition M (A : Type) : Type :=
  world -> list event -> list event * result A.

Definition ret {A : Type} (a : A) : M A :=
  fun _ _ => ([], Ok a).

Definition raise {A : Type} (e : exn) : M A :=
  fun _ _ => ([], Raise e).

Definition bind {A B : Type} (m : M A) (f : A -> M B) : M B :=
  fun w h =>
    match m w h with
    | (evs1, Ok a) =>
        match f a w (h ++ evs1) with
        | (evs2, r) => (evs1 ++ evs2, r)
        end
    | (evs1, Raise e) => (evs1, Raise e)
    end.

(** [try: body except Exception as e: handler e]. *)
Definition try_except {A : Type} (body : M A) (handler : exn -> M A) : M A :=
  fun w h =>
    match body w h with
    | (evs1, Ok a) => (evs1, Ok a)
    | (evs1, Raise e) =>
        match handler e w (h ++ evs1) with
        | (evs2, r) => (evs1 ++ evs2, r)
        end
    end.

Definition lift {A : Type} (r : result A) : M A :=
  fun _ _ => ([], r).

#[global] Instance M_ret : MRet M := @ret.
#[global] Instance M_bind : MBind M := fun A B f m => bind m f.

(** [for x in xs: body x]. *)
Fixpoint for_each {A B : Type} (body : A -> M B) (xs : list A) : M unit :=
  match xs with
  | [] => ret tt
  | x :: xs' => body x ;; for_each body xs'
  end.

Definition logger (level : log_level) (msg : string) : M unit :=
  fun _ _ => ([EvLog level msg], Ok tt).

Definition time_time : M Z :=
  fun w h => ([], Ok (clock w h)).

(** [with client.open_sftp() as sftp: with sftp.file(path, mode) as f:
    f.write(content)]: one exchange, which the transport may fail. *)
Definition sftp_write (path : string) (mode : open_mode) (content : string)
  : M unit :=
  fun w h => let reply := on_write w h path mode content in
             ([EvWrite path mode content reply], reply).

(** The same with [f.read()]: the transport yields the content of the
    file as bytes, whatever the mode. *)
Definition sftp_read (path : string) : M bytes :=
  fun w h => let reply := on_read w h path in ([EvRead path reply], reply).

(** The message of the [TypeError] of [re]. *)
Definition text_pattern_on_bytes : string :=
  "cannot use a string pattern on a bytes-like object".

(** [re.sub(pattern, '', content)] for a text [pattern] and the bytes
    [content]: [re] compiles the pattern and then refuses to search bytes
    with a text pattern, so the call never returns. *)
Definition re_sub_empty (pattern : string) (content : bytes) : M string :=
  fun w _ =>
    match Re.compile pattern with
    | Some _ => ([], Raise (TypeError text_pattern_on_bytes))
    | None => ([], Raise (re_outside w pattern))
    end.

(* ===================================================================== *)
(** ** Transport *)
(* ===================================================================== *)

Module SSHClient.

Record t : Type := {
  hostname : string;
  username : string;
  password : option string;
  key_filename : option string
}.

Definition connect (self : t) : M unit :=
  try_except
    (fun w h =>
       let reply := on_connect w h (hostname self) (username self)
                               (password self) (key_filename self) in
       ([EvConnect (hostname self) (username self) (password self)
                   (key_filename self) reply], reply))
    (fun e => raise (DNSConfigError
                       ("Failed to connect to " +:+ hostname self +:+ ": "
                        +:+ str_exn e))).

Definition execute_command (command : string) : M (string * string) :=
  fun w h => let reply := on_exec w h command in
             ([EvExec command reply], reply).

Definition close : M unit :=
  fun _ _ => ([EvClose], Ok tt).

End SSHClient.

Import SSHClient.

(** A zone record is a dict; a zone configuration holds an optional type
    and an optional record list ([zone_config.get('records', [])]). *)
Record zone_config : Type := {
  zc_type : option string;
  zc_records : option (list (gmap string string))
}.

Definition records_of (zc : zone_config) : list (gmap string string) :=
  match zc_records zc with
  | Some rs => rs
  | None => []
  end.

(* ===================================================================== *)
(** ** BIND *)
(* ===================================================================== *)

Module NamedServer.

Definition named_conf : string := "/etc/named.conf".
Definition zones_dir : string := "/var/named".

Definition install : M unit :=
  '(stdout, _) ← execute_command "rpm -q bind";
  if str_in "bind-" stdout then
    logger INFO "BIND is already installed"
  else
    try_except
      (execute_command "yum -y install bind bind-utils" ;;
       execute_command "systemctl enable named" ;;
       execute_command "systemctl start named" ;;
       logger INFO "BIND installed successfully")
      (fun e => raise (DNSConfigError
                         ("Failed to install BIND: " +:+ str_exn e))).

(** The template of [configure], [% config['forwarder']] applied. *)
Definition named_conf_content (forwarder : string) : string :=
  join NL [
  "";
  "options {";
  "        listen-on port 53 { any; };";
  "        listen-on-v6 { none; };";
  "        directory       " +:+ DQ +:+ "/var/named" +:+ DQ +:+ ";";
  "        dump-file       " +:+ DQ +:+ "/var/named/data/cache_dump.db" +:+ DQ +:+ ";";
  "        statistics-file " +:+ DQ +:+ "/var/named/data/named_stats.txt" +:+ DQ +:+ ";";
  "        memstatistics-file " +:+ DQ +:+ "/var/named/data/named_mem_stats.txt" +:+ DQ +:+ ";";
  "        secroots-file   " +:+ DQ +:+ "/var/named/data/named.secroots" +:+ DQ +:+ ";";
  "        recursing-file  " +:+ DQ +:+ "/var/named/data/named.recursing" +:+ DQ +:+ ";";
  "        allow-query     { any; };";
  "        forward only;";
  "        forwarders { " +:+ forwarder +:+ "; };";
  "};";
  "";
  "logging {";
  "        channel default_debug {";
  "                file " +:+ DQ +:+ "data/named.run" +:+ DQ +:+ ";";
  "                severity dynamic;";
  "        };";
  "};";
  "";
  "zone " +:+ DQ +:+ "." +:+ DQ +:+ " IN {";
  "        type hint;";
  "        file " +:+ DQ +:+ "named.ca" +:+ DQ +:+ ";";
  "};";
  ""
  ].

Definition backup_command : string :=
  "cp /etc/named.conf /etc/named.conf.bak 2>/dev/null || true".

Definition restart_command : string := "systemctl restart named".

Definition configure (config : gmap string string) : M unit :=
  try_except
    (install ;;
     execute_command backup_command ;;
     forwarder ← lift (getitem config "forwarder");
     sftp_write named_conf ModeW (named_conf_content forwarder) ;;
     logger INFO "Configuration file written successfully" ;;
     '(_, stderr) ← execute_command "named-checkconf";
     (if truthy stderr then
        raise (DNSConfigError ("named.conf syntax error: " +:+ stderr))
      else ret tt) ;;
     for_each execute_command
       ["chown root:named /etc/named.conf";
        "restorecon -v /etc/named.conf";
        "chmod 640 /etc/named.conf"] ;;
     execute_command restart_command ;;
     '(stdout, _) ← execute_command "systemctl is-active named";
     (if negb (str_in "active" stdout) then
        raise (DNSConfigError "named failed to start after configuration")
      else ret tt) ;;
     logger INFO "BIND configured and running successfully")
    (fun e =>
       logger ERROR ("Error during configuration: " +:+ str_exn e) ;;
       raise (DNSConfigError ("Failed to configure BIND: " +:+ str_exn e))).

(** The head of a zone file, up to the first record. *)
Definition zone_header (zone_name : string) (serial : Z) : string :=
  join NL [
  "$TTL 86400";
  "    @       IN      SOA     " +:+ zone_name +:+ ". admin." +:+ zone_name +:+ ". (";
  "                            " +:+ str_of_int serial +:+ "  ; Serial";
  "                            3600        ; Refresh";
  "                            1800        ; Retry";
  "                            604800      ; Expire";
  "                            86400 )     ; Minimum TTL";
  "";
  "    ; Name servers";
  "    @       IN      NS      ns1." +:+ zone_name +:+ ".";
  "    @       IN      NS      ns2." +:+ zone_name +:+ ".";
  "";
  "    ; A Records and CNAME Records";
  "    "
  ].

(** First loop of [add_zone]: the A records. *)
Fixpoint add_a_records (records : list (gmap string string))
                       (zone_content : string) : result string :=
  match records with
  | [] => Ok zone_content
  | record :: rest =>
      type ← getitem record "type";
      if String.eqb type "A" then
        name ← getitem record "name";
        if String.eqb name "@" then
          value ← getitem record "value";
          add_a_records rest
            (zone_content +:+ "@    IN    A    " +:+ value +:+ NL)
        else
          name' ← getitem record "name";
          value ← getitem record "value";
          add_a_records rest
            (zone_content +:+ name' +:+ "    IN    A    " +:+ value +:+ NL)
      else add_a_records rest zone_content
  end.

(** The value a CNAME line carries: dot-terminated if it holds a dot. *)
Definition cname_value (value : string) : string :=
  if str_in "." value then
    if negb (endswith value ".") then value +:+ "."
    else value
  else value.

(** Second loop of [add_zone]: the CNAME records. *)
Fixpoint add_cname_records (records : list (gmap string string))
                           (zone_content : string) : result string :=
  match records with
  | [] => Ok zone_content
  | record :: rest =>
      type ← getitem record "type";
      if String.eqb type "CNAME" then
        value ← getitem record "value";
        name ← getitem record "name";
        add_cname_records rest
          (zone_content +:+ name +:+ "    IN    CNAME    "
           +:+ cname_value value +:+ NL)
      else add_cname_records rest zone_content
  end.

(** The zone file [add_zone] uploads. *)
Definition zone_content (zone_name : string) (serial : Z)
                        (zc : zone_config) : result string :=
  with_a ← add_a_records (records_of zc) (zone_header zone_name serial);
  add_cname_records (records_of zc) with_a.

Definition zone_file_path (zone_name : string) : string :=
  zones_dir +:+ "/db." +:+ zone_name.

(** The stanza [add_zone] appends to the main configuration. *)
Definition zone_conf (zone_name zone_type : string) : string :=
  join NL [
  "";
  "    zone " +:+ DQ +:+ zone_name +:+ DQ +:+ " IN {";
  "            type " +:+ zone_type +:+ ";";
  "            file " +:+ DQ +:+ "db." +:+ zone_name +:+ DQ +:+ ";";
  "            allow-update { none; };";
  "    };";
  "    "
  ].

Definition checkzone_command (zone_name : string) : string :=
  "named-checkzone " +:+ zone_name +:+ " " +:+ zone_file_path zone_name.

Definition add_zone (zone_name : string) (zc : zone_config) : M unit :=
  try_except
    (now ← time_time;
     content ← lift (zone_content zone_name now zc);
     sftp_write (zone_file_path zone_name) ModeW content ;;
     for_each execute_command
       ["chown root:named " +:+ zone_file_path zone_name;
        "chmod 640 " +:+ zone_file_path zone_name;
        "restorecon -v " +:+ zone_file_path zone_name] ;;
     sftp_write named_conf ModeA
       (zone_conf zone_name (default "master" (zc_type zc))) ;;
     '(_, stderr) ← execute_command "named-checkconf";
     (if truthy stderr then
        raise (DNSConfigError ("Zone configuration error: " +:+ stderr))
      else ret tt) ;;
     '(_, stderr) ← execute_command (checkzone_command zone_name);
     (if truthy stderr && negb (str_in "OK" stderr) then
        raise (DNSConfigError ("Zone file syntax error: " +:+ stderr))
      else ret tt) ;;
     execute_command restart_command ;;
     logger INFO ("Zone " +:+ zone_name +:+ " added successfully"))
    (fun e =>
       logger ERROR ("Failed to add zone " +:+ zone_name +:+ ": "
                     +:+ str_exn e) ;;
       raise (DNSConfigError ("Zone configuration failed: " +:+ str_exn e))).

(** [add_ptr_zone]: the reverse zone's name from the network address. *)
Definition reverse_zone_of (network : string) : result string :=
  let ip_parts := split "." network in
  p2 ← list_index ip_parts 2;
  p1 ← list_index ip_parts 1;
  p0 ← list_index ip_parts 0;
  Ok (p2 +:+ "." +:+ p1 +:+ "." +:+ p0 +:+ ".in-addr.arpa").

Definition ptr_header (reverse_zone : string) (serial : Z) : string :=
  join NL [
  "$TTL 86400";
  "@       IN      SOA     ns1." +:+ reverse_zone +:+ ". admin." +:+ reverse_zone +:+ ". (";
  "                        " +:+ str_of_int serial +:+ "  ; Serial";
  "                        3600        ; Refresh";
  "                        1800        ; Retry";
  "                        604800      ; Expire";
  "                        86400 )     ; Minimum TTL";
  "";
  "@       IN      NS      ns1." +:+ reverse_zone +:+ ".";
  "@       IN      NS      ns2." +:+ reverse_zone +:+ ".";
  "";
  "; PTR Records";
  ""
  ].

(** The loop of [add_ptr_zone]: one line per record, keyed on the last
    dot-separated field of its [ip]. *)
Fixpoint add_ptr_records (records : list (gmap string string))
                         (zone_content : string) : result string :=
  match records with
  | [] => Ok zone_content
  | record :: rest =>
      ip_text ← getitem record "ip";
      ip ← list_index (split "." ip_text) (-1);
      hostname ← getitem record "hostname";
      add_ptr_records rest
        (zone_content +:+ ip +:+ "    IN    PTR    " +:+ hostname +:+ NL)
  end.

Definition ptr_zone_content (reverse_zone : string) (serial : Z)
                            (zc : zone_config) : result string :=
  add_ptr_records (records_of zc) (ptr_header reverse_zone serial).

Definition ptr_zone_conf (reverse_zone : string) : string :=
  join NL [
  "";
  "zone " +:+ DQ +:+ reverse_zone +:+ DQ +:+ " IN {";
  "        type master;";
  "        file " +:+ DQ +:+ "db." +:+ reverse_zone +:+ DQ +:+ ";";
  "        allow-update { none; };";
  "};";
  ""
  ].

Definition add_ptr_zone (network : string) (zc : zone_config) : M unit :=
  try_except
    (reverse_zone ← lift (reverse_zone_of network);
     now ← time_time;
     content ← lift (ptr_zone_content reverse_zone now zc);
     sftp_write (zone_file_path reverse_zone) ModeW content ;;
     for_each execute_command
       ["chown root:named " +:+ zone_file_path reverse_zone;
        "chmod 640 " +:+ zone_file_path reverse_zone;
        "restorecon -v " +:+ zone_file_path reverse_zone] ;;
     sftp_write named_conf ModeA (ptr_zone_conf reverse_zone) ;;
     '(_, stderr) ← execute_command "named-checkconf";
     (if truthy stderr then
        raise (DNSConfigError ("PTR zone configuration error: " +:+ stderr))
      else ret tt) ;;
     execute_command restart_command ;;
     logger INFO ("PTR zone for " +:+ network +:+ " added successfully"))
    (fun e =>
       logger ERROR ("Failed to add PTR zone for " +:+ network +:+ ": "
                     +:+ str_exn e) ;;
       raise (DNSConfigError
                ("PTR zone configuration failed: " +:+ str_exn e))).

(** The pattern [delete_zone] builds; the zone name goes into it as it
    is. *)
Definition zone_pattern (zone_name : string) : string :=
  "zone " +:+ DQ +:+ zone_name +:+ DQ +:+ " IN {[^}]+};".

Definition delete_zone (zone_name : string) : M unit :=
  try_except
    (execute_command ("rm -f " +:+ zone_file_path zone_name) ;;
     conf_content ← sftp_read named_conf;
     new_content ← re_sub_empty (zone_pattern zone_name) conf_content;
     sftp_write named_conf ModeW new_content ;;
     execute_command restart_command ;;
     logger INFO ("Zone " +:+ zone_name +:+ " deleted successfully"))
    (fun e =>
       logger ERROR ("Failed to delete zone " +:+ zone_name +:+ ": "
                     +:+ str_exn e) ;;
       raise (DNSConfigError ("Zone deletion failed: " +:+ str_exn e))).

End NamedServer.

(* ===================================================================== *)
(** ** dnsmasq *)
(* ===================================================================== *)

Module DnsmasqServer.

Definition config_path : string := "/etc/dnsmasq.conf".

Definition install : M unit :=
  '(stdout, _) ← execute_command "rpm -q dnsmasq";
  if str_in "dnsmasq-" stdout then
    logger INFO "dnsmasq is already installed"
  else
    try_except
      (execute_command "yum -y install dnsmasq" ;;
       execute_command "systemctl enable dnsmasq" ;;
       execute_command "systemctl start dnsmasq" ;;
       logger INFO "dnsmasq installed successfully")
      (fun e => raise (DNSConfigError
                         ("Failed to install dnsmasq: " +:+ str_exn e))).

(** The two entries of the rendered configuration, before the join. *)
Definition conf_lines (config : gmap string string) : result (list string) :=
  upstream ← getitem config "upstream_dns";
  Ok ["server=" +:+ upstream;
      "cache-size=" +:+ dict_get config "cache_size" "0"].

(** [configure], as far as the source goes: it ends after the restart
    command, before the verification and the handler of its [try]. *)
Definition configure (config : gmap string string) : M unit :=
  install ;;
  execute_command
    "cp /etc/dnsmasq.conf /etc/dnsmasq.conf.bak 2>/dev/null || true" ;;
  conf_content ← lift (conf_lines config);
  sftp_write config_path ModeW (join NL conf_content) ;;
  logger INFO "Configuration file written successfully" ;;
  execute_command "systemctl restart dnsmasq" ;;
  ret tt.

End DnsmasqServer.

(* ===================================================================== *)
(** ** Scripted hosts, to run the operations on *)
(* ===================================================================== *)

(** A host that answers each command from a table (nothing on either
    stream for a command that is not listed), accepts every upload, serves
    the bytes of [conf] for every download and shows a fixed clock. *)
Definition scripted_host (replies : list (string * (string * string)))
                         (conf : string) : world :=
  {| on_connect := fun _ _ _ _ _ => Ok tt;
     on_exec := fun _ command =>
       match find (fun entry => String.eqb (fst entry) command) replies with
       | Some entry => Ok (snd entry)
       | None => Ok (EmptyString, EmptyString)
       end;
     on_write := fun _ _ _ _ => Ok tt;
     on_read := fun _ _ => Ok (encode conf);
     clock := fun _ => 1700000000%Z;
     re_outside := fun _ => LibraryError "pattern outside the fragment"
  |}.

(** A host on which every command fails in the transport. *)
Definition dead_host : world :=
  {| on_connect := fun _ _ _ _ _ => Raise (LibraryError "Authentication failed.");
     on_exec := fun _ _ => Raise (LibraryError "SSH session not active");
     on_write := fun _ _ _ _ => Raise (LibraryError "SSH session not active");
     on_read := fun _ _ => Raise (LibraryError "SSH session not active");
     clock := fun _ => 1700000000%Z;
     re_outside := fun _ => LibraryError "pattern outside the fragment"
  |}.

(** The commands a run issued, in order. *)
Definition commands_of (evs : list event) : list string :=
  omap (fun ev => match ev with EvExec command _ => Some command | _ => None end)
       evs.

(** The contents a run uploaded to [path], in order. *)
Definition uploads_to (path : string) (evs : list event) : list string :=
  omap (fun ev => match ev with
                  | EvWrite p _ content _ =>
                      if String.eqb p path then Some content else None
                  | _ => None
                  end) evs.

(* ===================================================================== *)
(** ** Vocabulary of the specification *)
(* ===================================================================== *)

(** What a run shows: a command was issued; a command answered with given
    output; an operation ended in the configuration error. *)
Definition issued (command : string) (evs : list event) : Prop :=
  exists reply, In (EvExec command reply) evs.

Definition answered (command : string) (evs : list event)
                    (stdout stderr : string) : Prop :=
  In (EvExec command (Ok (stdout, stderr))) evs.

Definition raises_config_error {A : Type} (r : result A) : Prop :=
  exists msg, r = Raise (DNSConfigError msg).

(** The two operations that consult the external checkers. *)
Inductive checked_op : Type :=
| Configure (config : gmap string string)
| AddZone (zone_name : string) (zc : zone_config).

Definition run_checked (op : checked_op) : M unit :=
  match op with
  | Configure config => NamedServer.configure config
  | AddZone zone_name zc => NamedServer.add_zone zone_name zc
  end.

Definition conf_check_failed (evs : list event) : Prop :=
  exists stdout stderr,
    answered "named-checkconf" evs stdout stderr /\ stderr <> EmptyString.

(** Error text from a checker, as the specification words it: for the zone
    file, any output without [OK]. *)
Definition checker_error_as_stated (op : checked_op) (evs : list event)
  : Prop :=
  match op with
  | Configure _ => conf_check_failed evs
  | AddZone zone_name _ =>
      conf_check_failed evs \/
      exists stdout stderr,
        answered (NamedServer.checkzone_command zone_name) evs stdout stderr /\
        str_in "OK" stdout = false /\ str_in "OK" stderr = false
  end.

(** Error text from a checker, as the code takes it: for the zone file,
    a non-empty error stream without [OK]. *)
Definition checker_error (op : checked_op) (evs : list event) : Prop :=
  match op with
  | Configure _ => conf_check_failed evs
  | AddZone zone_name _ =>
      conf_check_failed evs \/
      exists stdout stderr,
        answered (NamedServer.checkzone_command zone_name) evs stdout stderr /\
        stderr <> EmptyString /\ str_in "OK" stderr = false
  end.

(** A record's field as text; empty when the key is absent. *)
Definition field (record : gmap string string) (key : string) : string :=
  default EmptyString (record !! key).

Definition has_type (type : string) (record : gmap string string) : Prop :=
  record !! "type" = Some type.

#[global] Instance has_type_dec type record : Decision (has_type type record).
Proof. unfold has_type. apply _. Defined.

(** A record the loops of [add_zone] can read without a [KeyError]: it has
    a type, and a name and a value if the type is [A] or [CNAME]. *)
Definition renderable (record : gmap string string) : bool :=
  match record !! "type" with
  | None => false
  | Some type =>
      if String.eqb type "A" || String.eqb type "CNAME" then
        bool_decide (is_Some (record !! "name")) &&
        bool_decide (is_Some (record !! "value"))
      else true
  end.

(** The zone-file line of an A record and of a CNAME record, as the
    specification describes them. *)
Definition a_line (record : gmap string string) : string :=
  field record "name" +:+ "    IN    A    " +:+ field record "value" +:+ NL.

Definition cname_line (record : gmap string string) : string :=
  field record "name" +:+ "    IN    CNAME    "
  +:+ NamedServer.cname_value (field record "value") +:+ NL.

Definition lines_text (lines : list string) : string :=
  String.concat EmptyString lines.

(** A record without a line break in its name or value. *)
Definition one_line (record : gmap string string) : Prop :=
  count_char "010" (field record "name") = 0 /\
  count_char "010" (field record "value") = 0.

(** What follows the last dot of a text (the whole text if it has none):
    the last octet of a dotted address. *)
Fixpoint after_last_dot (s : string) : string :=
  match s with
  | EmptyString => EmptyString
  | String c t =>
      if str_in "." t then after_last_dot t
      else if Ascii.eqb c "." then t
      else s
  end.

(** A record the loop of [add_ptr_zone] can read. *)
Definition ptr_renderable (record : gmap string string) : bool :=
  bool_decide (is_Some (record !! "ip")) &&
  bool_decide (is_Some (record !! "hostname")).

Definition ptr_line (record : gmap string string) : string :=
  after_last_dot (field record "ip") +:+ "    IN    PTR    "
  +:+ field record "hostname" +:+ NL.

(** A dotted quad, from its four dot-free fields. *)
Definition dotted_quad (a b c d : string) : string :=
  a +:+ "." +:+ b +:+ "." +:+ c +:+ "." +:+ d.

Definition dot_free (s : string) : Prop := str_in "." s = false.

(** What a run did after it first issued [command]. *)
Fixpoint after_command (command : string) (evs : list event) : list event :=
  match evs with
  | [] => []
  | EvExec c _ :: rest =>
      if String.eqb c command then rest else after_command command rest
  | _ :: rest => after_command command rest
  end.

(** A simple zone stanza of the main configuration: no brace inside. *)
Definition simple_stanza (zone_name body : string) : string :=
  "zone " +:+ DQ +:+ zone_name +:+ DQ +:+ " IN {" +:+ body +:+ "};".

(** The body [add_zone] would give a stanza, without the nested
    [allow-update] block. *)
Definition master_body (zone_name : string) : string :=
  " type master; file " +:+ DQ +:+ "db." +:+ zone_name +:+ DQ +:+ "; ".

(** The operations whose whole body sits in a [try] ... [except]. *)
Inductive wrapped_op : Type :=
| OpConfigure (config : gmap string string)
| OpAddZone (zone_name : string) (zc : zone_config)
| OpAddPtrZone (network : string) (zc : zone_config)
| OpDeleteZone (zone_name : string).

Definition run_wrapped (op : wrapped_op) : M unit :=
  match op with
  | OpConfigure config => NamedServer.configure config
  | OpAddZone zone_name zc => NamedServer.add_zone zone_name zc
  | OpAddPtrZone network zc => NamedServer.add_ptr_zone network zc
  | OpDeleteZone zone_name => NamedServer.delete_zone zone_name
  end.

(** The text each of them puts before the message it wraps. *)
Definition wrap_prefix (op : wrapped_op) : string :=
  match op with
  | OpConfigure _ => "Failed to configure BIND: "
  | OpAddZone _ _ => "Zone configuration failed: "
  | OpAddPtrZone _ _ => "PTR zone configuration failed: "
  | OpDeleteZone _ => "Zone deletion failed: "
  end.

(* ===================================================================== *)
(** ** Sample inputs and hosts *)
(* ===================================================================== *)

Definition sample_records : list (gmap string string) :=
  [ {[ "name" := "@"; "type" := "A"; "value" := "192.168.1.10" ]};
    {[ "name" := "webmail"; "type" := "CNAME"; "value" := "mail.example.com" ]};
    {[ "name" := "mx"; "type" := "MX"; "value" := "mail" ]};
    {[ "name" := "www"; "type" := "A"; "value" := "192.168.1.10" ]} ].

Definition sample_zone : zone_config :=
  {| zc_type := None; zc_records := Some sample_records |}.

Definition sample_a_zone : zone_config :=
  {| zc_type := Some "master";
     zc_records :=
       Some [ {[ "name" := "@"; "type" := "A"; "value" := "192.168.1.10" ]};
              {[ "name" := "www"; "type" := "A"; "value" := "192.168.1.11" ]} ]
  |}.

Definition sample_ptr_zone : zone_config :=
  {| zc_type := None;
     zc_records :=
       Some [ {[ "ip" := "192.168.1.50"; "hostname" := "host1.example.com." ]};
              {[ "ip" := "192.168.1.51"; "hostname" := "host2.example.com." ]} ]
  |}.

Definition sample_options : gmap string string :=
  {[ "forwarder" := "8.8.8.8" ]}.

Definition sample_dnsmasq_options : gmap string string :=
  {[ "upstream_dns" := "8.8.8.8"; "cache_size" := "1000" ]}.

(** BIND installed, every check silent, the service active. *)
Definition healthy_host : world :=
  scripted_host
    [("rpm -q bind", ("bind-9.11.4-26.el7", EmptyString));
     ("systemctl is-active named", ("active" +:+ NL, EmptyString))]
    EmptyString.

(** The main-configuration check complains on its error stream. *)
Definition rejecting_host : world :=
  scripted_host
    [("rpm -q bind", ("bind-9.11.4-26.el7", EmptyString));
     ("named-checkconf",
      (EmptyString, "/etc/named.conf:13: missing ';' before '}'"));
     ("systemctl is-active named", ("active" +:+ NL, EmptyString))]
    EmptyString.

(** The zone-file check reports its finding on standard output only. *)
Definition stdout_reporting_host : world :=
  scripted_host
    [(NamedServer.checkzone_command "example.com",
      ("zone example.com/IN: not loaded due to errors.", EmptyString))]
    EmptyString.

(** The zone-file check complains on its error stream. *)
Definition zone_rejecting_host : world :=
  scripted_host
    [(NamedServer.checkzone_command "example.com",
      (EmptyString,
       "dns_master_load: /var/named/db.example.com:14: unexpected end of input"))]
    EmptyString.

(** The service is stopped after the restart. *)
Definition inactive_host : world :=
  scripted_host
    [("rpm -q bind", ("bind-9.11.4-26.el7", EmptyString));
     ("systemctl is-active named", ("inactive" +:+ NL, EmptyString))]
    EmptyString.

(** A main configuration with two simple stanzas. *)
Definition sample_conf : string :=
  simple_stanza "example.com" (master_body "example.com") +:+ NL
  +:+ simple_stanza "example.org" (master_body "example.org") +:+ NL.

(* ===================================================================== *)
(** ** Further vocabulary: steps, failures, zone names *)
(* ===================================================================== *)

(** What each wrapped operation logs, at error level, about the message
    of what went wrong. *)
Definition error_log (op : wrapped_op) (msg : string) : string :=
  match op with
  | OpConfigure _ => "Error during configuration: " +:+ msg
  | OpAddZone zone_name _ => "Failed to add zone " +:+ zone_name +:+ ": " +:+ msg
  | OpAddPtrZone network _ =>
      "Failed to add PTR zone for " +:+ network +:+ ": " +:+ msg
  | OpDeleteZone zone_name =>
      "Failed to delete zone " +:+ zone_name +:+ ": " +:+ msg
  end.

(** What stands between [try] and [except] in each of them: the first
    argument of the [try_except] of its definition, taken from there. *)
Ltac guarded_part operation :=
  let unfolded :=
    eval cbv beta delta [NamedServer.configure NamedServer.add_zone
                         NamedServer.add_ptr_zone NamedServer.delete_zone]
    in operation in
  lazymatch unfolded with
  | try_except ?body _ => exact body
  end.

Definition guarded (op : wrapped_op) : M unit :=
  match op with
  | OpConfigure config => ltac:(guarded_part (NamedServer.configure config))
  | OpAddZone zone_name zc =>
      ltac:(guarded_part (NamedServer.add_zone zone_name zc))
  | OpAddPtrZone network zc =>
      ltac:(guarded_part (NamedServer.add_ptr_zone network zc))
  | OpDeleteZone zone_name =>
      ltac:(guarded_part (NamedServer.delete_zone zone_name))
  end.

(** The commands of [NamedServer.install] after its package query. *)
Definition install_commands : list string :=
  ["yum -y install bind bind-utils"; "systemctl enable named";
   "systemctl start named"].

(** The commands of [NamedServer.configure] after [install]. *)
Definition configure_commands : list string :=
  [NamedServer.backup_command; "named-checkconf";
   "chown root:named /etc/named.conf"; "restorecon -v /etc/named.conf";
   "chmod 640 /etc/named.conf"; NamedServer.restart_command;
   "systemctl is-active named"].

(** No upload at all in a run. *)
Definition no_upload (evs : list event) : Prop :=
  forall path mode content reply, ~ In (EvWrite path mode content reply) evs.

(** BIND is not installed yet; everything else goes well. *)
Definition fresh_host : world :=
  scripted_host
    [("rpm -q bind", ("package bind is not installed" +:+ NL, EmptyString));
     ("systemctl is-active named", ("active" +:+ NL, EmptyString))]
    EmptyString.

(** The commands of a successful [add_zone], in order. *)
Definition add_zone_commands (zone_name : string) : list string :=
  ["chown root:named " +:+ NamedServer.zone_file_path zone_name;
   "chmod 640 " +:+ NamedServer.zone_file_path zone_name;
   "restorecon -v " +:+ NamedServer.zone_file_path zone_name;
   "named-checkconf";
   NamedServer.checkzone_command zone_name;
   NamedServer.restart_command].

Definition dnsmasq_install_commands : list string :=
  ["yum -y install dnsmasq"; "systemctl enable dnsmasq";
   "systemctl start dnsmasq"].

(** The main configuration cannot be downloaded. *)
Definition unreadable_host : world :=
  {| on_connect := fun _ _ _ _ _ => Ok tt;
     on_exec := fun _ _ => Ok (EmptyString, EmptyString);
     on_write := fun _ _ _ _ => Ok tt;
     on_read := fun _ _ => Raise (LibraryError "Permission denied");
     clock := fun _ => 1700000000%Z;
     re_outside := fun _ => LibraryError "pattern outside the fragment"
  |}.

(** No package is installed, and the session breaks at the first command
    that installs one. *)
Definition yum_failing_host : world :=
  {| on_connect := fun _ _ _ _ _ => Ok tt;
     on_exec := fun _ command =>
       if String.prefix "yum " command
       then Raise (LibraryError "SSH session not active")
       else Ok (EmptyString, EmptyString);
     on_write := fun _ _ _ _ => Ok tt;
     on_read := fun _ _ => Ok [];
     clock := fun _ => 1700000000%Z;
     re_outside := fun _ => LibraryError "pattern outside the fragment"
  |}.

(** A character that stands for itself in a pattern. *)
Definition literal_char (c : ascii) : bool :=
  negb (Ascii.eqb c "." || Ascii.eqb c "+" || Ascii.eqb c "["
        || Ascii.eqb c "{" || Re.unsupported c).

Fixpoint all_chars (p : ascii -> bool) (s : string) : bool :=
  match s with
  | EmptyString => true
  | String c t => p c && all_chars p t
  end.

(** A character of a zone name: a dot, or a character that stands for
    itself in a pattern (a letter, a digit, a hyphen, an underscore, and
    so on). *)
Definition name_char (c : ascii) : bool :=
  Ascii.eqb c "." || literal_char c.

(** What one character of a zone name becomes in the pattern. *)
Definition atom_of (c : ascii) : Re.atom :=
  if Ascii.eqb c "." then Re.AnyChar else Re.Lit c.

Fixpoint atom_tokens (s : string) : list Re.token :=
  match s with
  | EmptyString => []
  | String c t => Re.TAtom (atom_of c) :: atom_tokens t
  end.

Fixpoint atoms (s : string) : Re.regex :=
  match s with
  | EmptyString => []
  | String c t => Re.Once (atom_of c) :: atoms t
  end.

(** The start of a stanza of [zone_name], up to its opening brace. *)
Definition stanza_head (zone_name : string) : string :=
  "zone " +:+ DQ +:+ zone_name +:+ DQ +:+ " IN {".

(** What the pattern of [delete_zone] compiles to for a name of name
    characters. *)
Definition stanza_regex (zone_name : string) : Re.regex :=
  atoms (stanza_head zone_name)
  ++ [Re.Plus (Re.NotChar "}"); Re.Once (Re.Lit "}"); Re.Once (Re.Lit ";")].

(** A record without its type. *)
Definition sample_bad_zone : zone_config :=
  {| zc_type := None;
     zc_records := Some [ {[ "name" := "www"; "value" := "192.168.1.10" ]} ] |}.

(* ===================================================================== *)
(** * Properties *)
(* ===================================================================== *)

(* ===================================================================== *)
(** ** Text *)
(* ===================================================================== *)


Lemma append_cons (c : ascii) (a b : string) :
  String c a +:+ b = String c (a +:+ b).
Proof. reflexivity. Qed.

Lemma append_nil_l (b : string) : "" +:+ b = b.
Proof. reflexivity. Qed.

Lemma append_assoc (a b c : string) : (a +:+ b) +:+ c = a +:+ b +:+ c.
Proof.
  induction a as [|x a IH]; [done|]. rewrite !append_cons. by rewrite IH.
Qed.

Lemma append_empty_r (a : string) : a +:+ "" = a.
Proof. induction a as [|x a IH]; [done|]. rewrite append_cons. by rewrite IH. Qed.

Lemma prefix_spec (p s : string) :
  String.prefix p s = true <-> exists rest, s = p +:+ rest.
Proof.
  revert s. induction p as [|c p IH]; intros s.
  - split; [by exists s|by destruct s].
  - destruct s as [|d s]; simpl.
    + split; [done|by intros [? ?]].
    + destruct (Ascii.ascii_dec c d) as [->|Hne].
      * rewrite IH. split; intros [rest H]; exists rest.
        -- rewrite append_cons. congruence.
        -- rewrite append_cons in H. congruence.
      * split; [done|]. intros [rest H]. rewrite append_cons in H. congruence.
Qed.

Lemma str_in_spec (needle hay : string) :
  str_in needle hay = true <->
  exists before after, hay = before +:+ needle +:+ after.
Proof.
  induction hay as [|c hay IH]; cbn [str_in].
  - rewrite orb_false_r, prefix_spec. split.
    + intros [rest H]. by exists "", rest.
    + intros ([|? ?] & after & H); [by exists after|done].
  - rewrite orb_true_iff, prefix_spec, IH. split.
    + intros [[rest H]|(before & after & H)].
      * by exists "", rest.
      * exists (String c before), after. rewrite append_cons. by rewrite H.
    + intros ([|d before] & after & H).
      * left. by exists after.
      * right. rewrite append_cons in H. injection H as -> H.
        by exists before, after.
Qed.

Lemma endswith_spec (s suffix : string) :
  endswith s suffix = true <-> exists before, s = before +:+ suffix.
Proof.
  induction s as [|c s IH]; cbn [endswith].
  - rewrite orb_false_r, String.eqb_eq. split.
    + intros <-. by exists "".
    + intros ([|? ?] & H); [done|done].
  - rewrite orb_true_iff, String.eqb_eq, IH. split.
    + intros [<-|[before H]]; [by exists ""|].
      exists (String c before). rewrite append_cons. by rewrite H.
    + intros ([|d before] & H); [by left|].
      right. rewrite append_cons in H. injection H as -> H. by exists before.
Qed.

Lemma str_in_cons_false (c : ascii) (t : string) :
  str_in "." (String c t) = false ->
  Ascii.eqb c "." = false /\ str_in "." t = false.
Proof.
  cbn [str_in]. intros [Hp Ht]%orb_false_iff. split; [|done].
  destruct (Ascii.eqb_spec c ".") as [->|Hne]; [|done].
  by destruct t.
Qed.

Lemma split_dot_free (s : string) : dot_free s -> split "." s = [s].
Proof.
  unfold dot_free. induction s as [|c s IH]; [done|].
  intros [Hc Hs]%str_in_cons_false. simpl. rewrite Hc, (IH Hs). done.
Qed.

Lemma split_field (a rest : string) :
  dot_free a -> split "." (a +:+ "." +:+ rest) = a :: split "." rest.
Proof.
  unfold dot_free. induction a as [|c a IH]; [done|].
  intros [Hc Ha]%str_in_cons_false. rewrite append_cons. simpl.
  rewrite Hc, (IH Ha). done.
Qed.


Lemma count_char_app (c : ascii) (a b : string) :
  count_char c (a +:+ b) = count_char c a + count_char c b.
Proof.
  induction a as [|x a IH]; [done|]. rewrite append_cons. cbn [count_char].
  rewrite IH. lia.
Qed.

Lemma str_in_dot_cons (c : ascii) (t : string) :
  str_in "." (String c t) = Ascii.eqb c "." || str_in "." t.
Proof.
  cbn [str_in]. f_equal.
  destruct (Ascii.eqb_spec c ".") as [->|Hne].
  - apply prefix_spec. by exists t.
  - apply not_true_is_false. intros [rest H]%prefix_spec.
    rewrite append_cons in H. congruence.
Qed.

Lemma split_nonempty (sep : ascii) (s : string) : split sep s <> [].
Proof.
  destruct s as [|c t]; [done|]. cbn [split].
  destruct (Ascii.eqb c sep); [done|]. by destruct (split sep t).
Qed.

Lemma split_two_fields (s : string) :
  str_in "." s = true -> exists f g fs, split "." s = f :: g :: fs.
Proof.
  induction s as [|c t IH]; [done|].
  rewrite str_in_dot_cons. cbn [split].
  destruct (Ascii.eqb c ".").
  - intros _. destruct (split "." t) as [|g fs] eqn:Hs.
    + by apply split_nonempty in Hs.
    + by exists "", g, fs.
  - intros (f & g & fs & ->)%IH. by exists (String c f), g, fs.
Qed.

Lemma last_field (s : string) :
  last (split "." s) = Some (after_last_dot s).
Proof.
  induction s as [|c t IH]; [done|].
  cbn [split after_last_dot].
  destruct (str_in "." t) eqn:Hdot.
  - destruct (split_two_fields t Hdot) as (f & g & fs & Hs).
    rewrite Hs in IH |- *. by destruct (Ascii.eqb c ".").
  - rewrite (split_dot_free t Hdot). by destruct (Ascii.eqb c ".").
Qed.

Lemma list_index_last {A : Type} (l : list A) (x : A) :
  last l = Some x -> list_index l (-1) = Ok x.
Proof.
  intros [l' ->]%last_Some. unfold list_index.
  rewrite length_app. cbn [length].
  replace (if (-1 <? 0)%Z then (Z.of_nat (length l' + 1) + -1)%Z else (-1)%Z)
    with (Z.of_nat (length l')) by (cbn; lia).
  destruct (Z.ltb_spec (Z.of_nat (length l')) 0) as [?|_]; [lia|].
  rewrite Nat2Z.id. by rewrite list_lookup_middle.
Qed.

Lemma after_last_dot_field (before octet : string) :
  dot_free octet -> after_last_dot (before +:+ "." +:+ octet) = octet.
Proof.
  intros Hfree. induction before as [|c before IH].
  - change ("" +:+ "." +:+ octet) with (String "." octet).
    cbn [after_last_dot]. by rewrite Hfree.
  - rewrite append_cons. cbn [after_last_dot].
    assert (str_in "." (before +:+ "." +:+ octet) = true) as ->; [|done].
    apply str_in_spec. by exists before, octet.
Qed.

(* ===================================================================== *)
(** ** Zone files *)
(* ===================================================================== *)


Implicit Types (record : gmap string string)
               (records : list (gmap string string)).

Lemma getitem_Some record key v :
  record !! key = Some v -> getitem record key = Ok v.
Proof. unfold getitem. by intros ->. Qed.

Lemma field_Some record key v : record !! key = Some v -> field record key = v.
Proof. unfold field. by intros ->. Qed.

Lemma lines_text_cons (line : string) (lines : list string) :
  lines_text (line :: lines) = line +:+ lines_text lines.
Proof.
  unfold lines_text. destruct lines as [|l ls]; simpl.
  - by rewrite append_empty_r.
  - done.
Qed.

Lemma add_a_records_step record rest acc :
  NamedServer.add_a_records (record :: rest) acc =
  match record !! "type" with
  | None => Raise (KeyError "type")
  | Some type =>
      if String.eqb type "A" then
        match record !! "name", record !! "value" with
        | None, _ => Raise (KeyError "name")
        | Some _, None => Raise (KeyError "value")
        | Some name, Some value =>
            NamedServer.add_a_records rest
              (acc +:+ name +:+ "    IN    A    " +:+ value +:+ NL)
        end
      else NamedServer.add_a_records rest acc
  end.
Proof.
  cbn [NamedServer.add_a_records]. unfold getitem.
  destruct (record !! "type") as [type|]; [|done]. cbn.
  destruct (String.eqb type "A"); [|done].
  destruct (record !! "name") as [name|]; [|done]. cbn.
  destruct (String.eqb_spec name "@") as [->|Hne]; cbn.
  - by destruct (record !! "value").
  - by destruct (record !! "value").
Qed.

Lemma add_cname_records_step record rest acc :
  NamedServer.add_cname_records (record :: rest) acc =
  match record !! "type" with
  | None => Raise (KeyError "type")
  | Some type =>
      if String.eqb type "CNAME" then
        match record !! "value", record !! "name" with
        | None, _ => Raise (KeyError "value")
        | Some _, None => Raise (KeyError "name")
        | Some value, Some name =>
            NamedServer.add_cname_records rest
              (acc +:+ name +:+ "    IN    CNAME    "
               +:+ NamedServer.cname_value value +:+ NL)
        end
      else NamedServer.add_cname_records rest acc
  end.
Proof.
  cbn [NamedServer.add_cname_records]. unfold getitem.
  destruct (record !! "type") as [type|]; [|done]. cbn.
  destruct (String.eqb type "CNAME"); [|done].
  destruct (record !! "value") as [value|]; [|done]. cbn.
  by destruct (record !! "name").
Qed.

Lemma add_a_records_lines records acc :
  forallb renderable records = true ->
  NamedServer.add_a_records records acc =
  Ok (acc +:+ lines_text (a_line <$> filter (has_type "A") records)).
Proof.
  revert acc. induction records as [|record rest IH]; intros acc.
  - intros _. cbn. by rewrite append_empty_r.
  - cbn [forallb]. intros [Hr Hrest]%andb_true_iff.
    rewrite add_a_records_step. unfold renderable in Hr.
    destruct (record !! "type") as [type|] eqn:Htype; [|done].
    destruct (String.eqb_spec type "A") as [->|Hne].
    + cbn in Hr. apply andb_true_iff in Hr as [Hn Hv].
      apply bool_decide_eq_true in Hn as [name Hn], Hv as [value Hv].
      rewrite Hn, Hv, (IH _ Hrest).
      rewrite filter_cons_True by done. rewrite fmap_cons, lines_text_cons.
      unfold a_line. rewrite (field_Some _ _ _ Hn), (field_Some _ _ _ Hv).
      by rewrite !append_assoc.
    + rewrite (IH _ Hrest). rewrite filter_cons_False; [done|].
      unfold has_type. congruence.
Qed.

Lemma add_cname_records_lines records acc :
  forallb renderable records = true ->
  NamedServer.add_cname_records records acc =
  Ok (acc +:+ lines_text (cname_line <$> filter (has_type "CNAME") records)).
Proof.
  revert acc. induction records as [|record rest IH]; intros acc.
  - intros _. cbn. by rewrite append_empty_r.
  - cbn [forallb]. intros [Hr Hrest]%andb_true_iff.
    rewrite add_cname_records_step. unfold renderable in Hr.
    destruct (record !! "type") as [type|] eqn:Htype; [|done].
    destruct (String.eqb_spec type "CNAME") as [->|Hne].
    + cbn in Hr. apply andb_true_iff in Hr as [Hn Hv].
      apply bool_decide_eq_true in Hn as [name Hn], Hv as [value Hv].
      rewrite Hn, Hv, (IH _ Hrest).
      rewrite filter_cons_True by done. rewrite fmap_cons, lines_text_cons.
      unfold cname_line. rewrite (field_Some _ _ _ Hn), (field_Some _ _ _ Hv).
      by rewrite !append_assoc.
    + rewrite (IH _ Hrest). rewrite filter_cons_False; [done|].
      unfold has_type. congruence.
Qed.



Lemma add_a_records_app before after acc :
  NamedServer.add_a_records (before ++ after) acc =
  NamedServer.add_a_records before acc ≫= NamedServer.add_a_records after.
Proof.
  revert acc. induction before as [|record before IH]; intros acc; [done|].
  rewrite <- app_comm_cons, !add_a_records_step.
  destruct (record !! "type") as [type|]; [|done].
  destruct (String.eqb type "A"); [|apply IH].
  destruct (record !! "name"); [|done].
  destruct (record !! "value"); [apply IH|done].
Qed.

Lemma add_cname_records_app before after acc :
  NamedServer.add_cname_records (before ++ after) acc =
  NamedServer.add_cname_records before acc
  ≫= NamedServer.add_cname_records after.
Proof.
  revert acc. induction before as [|record before IH]; intros acc; [done|].
  rewrite <- app_comm_cons, !add_cname_records_step.
  destruct (record !! "type") as [type|]; [|done].
  destruct (String.eqb type "CNAME"); [|apply IH].
  destruct (record !! "value"); [|done].
  destruct (record !! "name"); [apply IH|done].
Qed.

Lemma filter_all_a records :
  Forall (has_type "A") records ->
  filter (has_type "A") records = records /\
  filter (has_type "CNAME") records = [].
Proof.
  induction 1 as [|record rest Hr _ [IHa IHc]]; [done|].
  rewrite filter_cons_True by done. rewrite filter_cons_False.
  - by rewrite IHa.
  - unfold has_type in *. congruence.
Qed.

Lemma a_lines_breaks records :
  Forall one_line records ->
  count_char "010" (lines_text (a_line <$> records)) = length records.
Proof.
  induction 1 as [|record rest [Hn Hv] _ IH]; [done|].
  rewrite fmap_cons, lines_text_cons, count_char_app, IH.
  unfold a_line. rewrite !count_char_app, Hn, Hv. done.
Qed.

(** C5.  For a record list that [add_zone] can read, the zone file is its
    head followed by the lines of all A records in input order and then the
    lines of all CNAME records in input order; the line of an apex record
    starts with a literal [@]; and for a list of A records only there is
    one line per record (one line break per record when no field holds a
    line break). *)
Theorem zone_file_a_then_cname zone_name serial zc :
  forallb renderable (records_of zc) = true ->
  NamedServer.zone_content zone_name serial zc =
    Ok (NamedServer.zone_header zone_name serial
        +:+ lines_text (a_line <$> filter (has_type "A") (records_of zc))
        +:+ lines_text (cname_line <$>
                        filter (has_type "CNAME") (records_of zc)))
  /\ (forall record value,
        record !! "name" = Some "@" -> record !! "value" = Some value ->
        a_line record = "@    IN    A    " +:+ value +:+ NL)
  /\ (Forall (has_type "A") (records_of zc) ->
      NamedServer.zone_content zone_name serial zc =
        Ok (NamedServer.zone_header zone_name serial
            +:+ lines_text (a_line <$> records_of zc))
      /\ length (a_line <$> records_of zc) = length (records_of zc)
      /\ (Forall one_line (records_of zc) ->
          count_char "010" (lines_text (a_line <$> records_of zc))
          = length (records_of zc))).
Proof.
  intros Hok.
  assert (NamedServer.zone_content zone_name serial zc =
    Ok (NamedServer.zone_header zone_name serial
        +:+ lines_text (a_line <$> filter (has_type "A") (records_of zc))
        +:+ lines_text (cname_line <$>
                        filter (has_type "CNAME") (records_of zc)))) as Hzone.
  { unfold NamedServer.zone_content.
    rewrite (add_a_records_lines _ _ Hok). cbn.
    rewrite (add_cname_records_lines _ _ Hok). by rewrite append_assoc. }
  split; [exact Hzone|]. split.
  - intros record value Hn Hv. unfold a_line.
    by rewrite (field_Some _ _ _ Hn), (field_Some _ _ _ Hv).
  - intros Hall. destruct (filter_all_a _ Hall) as [Ha Hc].
    rewrite Hzone, Ha, Hc. cbn [fmap list_fmap lines_text String.concat].
    rewrite append_empty_r. split; [done|]. split.
    + by rewrite length_fmap.
    + apply a_lines_breaks.
Qed.

Lemma zone_file_a_then_cname_witness :
  forallb renderable (records_of sample_zone) = true
  /\ NamedServer.zone_content "example.com" 1700000000 sample_zone =
       Ok (NamedServer.zone_header "example.com" 1700000000
           +:+ lines_text (a_line <$> filter (has_type "A")
                                             (records_of sample_zone))
           +:+ lines_text (cname_line <$> filter (has_type "CNAME")
                                                 (records_of sample_zone))).
Proof.
  assert (forallb renderable (records_of sample_zone) = true) as Hok
    by (vm_compute; reflexivity).
  split; [exact Hok|].
  exact (proj1 (zone_file_a_then_cname "example.com" 1700000000 sample_zone Hok)).
Defined.

Lemma lines_text_app (before after : list string) :
  lines_text (before ++ after) = lines_text before +:+ lines_text after.
Proof.
  induction before as [|line before IH]; [reflexivity|].
  rewrite <- app_comm_cons, !lines_text_cons, IH. by rewrite append_assoc.
Qed.

(** The zone file of a record list with a CNAME record in it, the line of
    that record written out. *)
Lemma zone_content_around_cname
      zone_name serial zone_type before record after name value :
  forallb renderable (before ++ record :: after) = true ->
  record !! "type" = Some "CNAME" ->
  record !! "name" = Some name ->
  record !! "value" = Some value ->
  NamedServer.zone_content zone_name serial
    {| zc_type := zone_type; zc_records := Some (before ++ record :: after) |}
  = Ok (NamedServer.zone_header zone_name serial
        +:+ lines_text (a_line <$> filter (has_type "A")
                                          (before ++ record :: after))
        +:+ lines_text (cname_line <$> filter (has_type "CNAME") before)
        +:+ (name +:+ "    IN    CNAME    " +:+ NamedServer.cname_value value
             +:+ NL)
        +:+ lines_text (cname_line <$> filter (has_type "CNAME") after)).
Proof.
  intros Hok Ht Hn Hv. unfold NamedServer.zone_content.
  cbn [records_of zc_records default].
  rewrite (add_a_records_lines _ _ Hok). cbn [mbind result_bind rbind].
  rewrite (add_cname_records_lines _ _ Hok). f_equal.
  assert (filter (has_type "CNAME") (before ++ record :: after)
          = filter (has_type "CNAME") before
            ++ record :: filter (has_type "CNAME") after) as ->
    by (by rewrite filter_app, filter_cons_True).
  rewrite fmap_app, fmap_cons, lines_text_app, lines_text_cons.
  unfold cname_line at 2.
  rewrite (field_Some _ _ _ Hn), (field_Some _ _ _ Hv).
  by rewrite !append_assoc.
Qed.

(** C4.  In the zone file [add_zone] renders, the line of a CNAME record
    whose value holds a dot and does not end with one is the name, the
    separator and the value followed by exactly one more dot; the line of a
    CNAME record whose value holds no dot carries the value as it is.  The
    line stands where the record stands among the CNAME records. *)
Theorem cname_value_gains_one_dot
        zone_name serial zone_type before record after name value :
  forallb renderable (before ++ record :: after) = true ->
  record !! "type" = Some "CNAME" ->
  record !! "name" = Some name ->
  record !! "value" = Some value ->
  (str_in "." value = true -> endswith value "." = false ->
   NamedServer.zone_content zone_name serial
     {| zc_type := zone_type;
        zc_records := Some (before ++ record :: after) |}
   = Ok (NamedServer.zone_header zone_name serial
         +:+ lines_text (a_line <$> filter (has_type "A")
                                           (before ++ record :: after))
         +:+ lines_text (cname_line <$> filter (has_type "CNAME") before)
         +:+ (name +:+ "    IN    CNAME    " +:+ value +:+ "." +:+ NL)
         +:+ lines_text (cname_line <$> filter (has_type "CNAME") after)))
  /\ (str_in "." value = false ->
      NamedServer.zone_content zone_name serial
        {| zc_type := zone_type;
           zc_records := Some (before ++ record :: after) |}
      = Ok (NamedServer.zone_header zone_name serial
            +:+ lines_text (a_line <$> filter (has_type "A")
                                              (before ++ record :: after))
            +:+ lines_text (cname_line <$> filter (has_type "CNAME") before)
            +:+ (name +:+ "    IN    CNAME    " +:+ value +:+ NL)
            +:+ lines_text (cname_line <$> filter (has_type "CNAME") after))).
Proof.
  intros Hok Ht Hn Hv.
  pose proof (zone_content_around_cname zone_name serial zone_type
                _ _ _ _ _ Hok Ht Hn Hv) as Hzone.
  unfold NamedServer.cname_value in Hzone. split.
  - intros Hdot Hend. rewrite Hdot, Hend in Hzone. cbn [negb] in Hzone.
    rewrite Hzone. by rewrite !append_assoc.
  - intros Hdot. rewrite Hdot in Hzone. exact Hzone.
Qed.

Lemma cname_value_gains_one_dot_witness :
  NamedServer.zone_content "example.com" 1700000000 sample_zone
  = Ok (NamedServer.zone_header "example.com" 1700000000
        +:+ ("@    IN    A    192.168.1.10" +:+ NL
             +:+ "www    IN    A    192.168.1.10" +:+ NL)
        +:+ ("webmail    IN    CNAME    mail.example.com." +:+ NL)).
Proof.
  refine (eq_trans
            (proj1 (cname_value_gains_one_dot
                      "example.com" 1700000000 None
                      [ {[ "name" := "@"; "type" := "A";
                           "value" := "192.168.1.10" ]} ]
                      {[ "name" := "webmail"; "type" := "CNAME";
                         "value" := "mail.example.com" ]}
                      [ {[ "name" := "mx"; "type" := "MX"; "value" := "mail" ]};
                        {[ "name" := "www"; "type" := "A";
                           "value" := "192.168.1.10" ]} ]
                      "webmail" "mail.example.com" _ _ _ _) _ _) _);
    vm_compute; reflexivity.
Defined.

(** C10.  A record whose type is neither [A] nor [CNAME] leaves no trace
    in the zone file: rendering the list with the record is rendering the
    list without it. *)
Theorem other_record_types_emit_nothing
        zone_name serial zone_type type before record after :
  record !! "type" = Some type -> type <> "A" -> type <> "CNAME" ->
  NamedServer.zone_content zone_name serial
    {| zc_type := zone_type; zc_records := Some (before ++ record :: after) |}
  = NamedServer.zone_content zone_name serial
      {| zc_type := zone_type; zc_records := Some (before ++ after) |}.
Proof.
  intros Ht Ha Hc. unfold NamedServer.zone_content, records_of. cbn [zc_records].
  rewrite !add_a_records_app.
  destruct (NamedServer.add_a_records before _) as [with_before|e]; [|done].
  cbn [mbind result_bind rbind]. rewrite add_a_records_step, Ht.
  apply String.eqb_neq in Ha as ->.
  destruct (NamedServer.add_a_records after with_before) as [with_a|e];
    [|done].
  cbn [mbind result_bind rbind]. rewrite !add_cname_records_app.
  destruct (NamedServer.add_cname_records before with_a) as [c|e]; [|done].
  cbn [mbind result_bind rbind]. rewrite add_cname_records_step, Ht.
  by apply String.eqb_neq in Hc as ->.
Qed.

Lemma other_record_types_emit_nothing_witness :
  NamedServer.zone_content "example.com" 1700000000
    {| zc_type := None;
       zc_records :=
         Some ([ {[ "name" := "@"; "type" := "A"; "value" := "192.168.1.10" ]} ]
               ++ {[ "name" := "mx"; "type" := "MX"; "value" := "mail" ]}
               :: [ {[ "name" := "www"; "type" := "A";
                       "value" := "192.168.1.10" ]} ]) |}
  = NamedServer.zone_content "example.com" 1700000000
      {| zc_type := None;
         zc_records :=
           Some ([ {[ "name" := "@"; "type" := "A";
                      "value" := "192.168.1.10" ]} ]
                 ++ [ {[ "name" := "www"; "type" := "A";
                         "value" := "192.168.1.10" ]} ]) |}.
Proof.
  apply (other_record_types_emit_nothing
           "example.com" 1700000000 None "MX").
  - vm_compute; reflexivity.
  - discriminate.
  - discriminate.
Defined.

(** C6.  For a dotted quad the reverse zone name is the third, second and
    first field, in that order, followed by [.in-addr.arpa]; the network
    [192.168.1.0] gives [1.168.192.in-addr.arpa]. *)
Theorem reverse_zone_reverses_three_octets a b c d :
  dot_free a -> dot_free b -> dot_free c -> dot_free d ->
  NamedServer.reverse_zone_of (dotted_quad a b c d)
  = Ok (c +:+ "." +:+ b +:+ "." +:+ a +:+ ".in-addr.arpa")
  /\ NamedServer.reverse_zone_of "192.168.1.0" = Ok "1.168.192.in-addr.arpa".
Proof.
  intros Ha Hb Hc Hd. split; [|done].
  unfold NamedServer.reverse_zone_of, dotted_quad.
  rewrite !split_field, (split_dot_free d) by done. done.
Qed.

Lemma reverse_zone_reverses_three_octets_witness :
  NamedServer.reverse_zone_of (dotted_quad "10" "20" "30" "0")
  = Ok ("30" +:+ "." +:+ "20" +:+ "." +:+ "10" +:+ ".in-addr.arpa").
Proof.
  apply (reverse_zone_reverses_three_octets "10" "20" "30" "0");
    vm_compute; reflexivity.
Defined.

Lemma add_ptr_records_lines records acc :
  forallb ptr_renderable records = true ->
  NamedServer.add_ptr_records records acc =
  Ok (acc +:+ lines_text (ptr_line <$> records)).
Proof.
  revert acc. induction records as [|record rest IH]; intros acc.
  - intros _. cbn. by rewrite append_empty_r.
  - cbn [forallb]. intros [Hr Hrest]%andb_true_iff.
    apply andb_true_iff in Hr as [Hi Hh].
    apply bool_decide_eq_true in Hi as [ip Hi], Hh as [hostname Hh].
    cbn [NamedServer.add_ptr_records].
    rewrite (getitem_Some _ _ _ Hi). cbn [mbind result_bind rbind].
    rewrite (list_index_last _ _ (last_field ip)).
    cbn [mbind result_bind rbind].
    rewrite (getitem_Some _ _ _ Hh). cbn [mbind result_bind rbind].
    rewrite (IH _ Hrest), fmap_cons, lines_text_cons. unfold ptr_line.
    rewrite (field_Some _ _ _ Hi), (field_Some _ _ _ Hh).
    by rewrite !append_assoc.
Qed.

(** C7.  The PTR zone file is its head followed by one line per record in
    input order; the line is keyed on what follows the last dot of the
    record's [ip] and maps it to the record's [hostname]; for ip
    [192.168.1.50] the key is [50]. *)
Theorem ptr_lines_keyed_on_last_octet reverse_zone serial zc :
  forallb ptr_renderable (records_of zc) = true ->
  NamedServer.ptr_zone_content reverse_zone serial zc =
    Ok (NamedServer.ptr_header reverse_zone serial
        +:+ lines_text (ptr_line <$> records_of zc))
  /\ (forall record before octet hostname,
        record !! "ip" = Some (before +:+ "." +:+ octet) -> dot_free octet ->
        record !! "hostname" = Some hostname ->
        ptr_line record = octet +:+ "    IN    PTR    " +:+ hostname +:+ NL)
  /\ ptr_line {[ "ip" := "192.168.1.50"; "hostname" := "host1.example.com." ]}
     = "50    IN    PTR    host1.example.com." +:+ NL.
Proof.
  intros Hok. split; [by apply add_ptr_records_lines|]. split.
  - intros record before octet hostname Hi Hfree Hh. unfold ptr_line.
    rewrite (field_Some _ _ _ Hi), (field_Some _ _ _ Hh).
    by rewrite after_last_dot_field.
  - by vm_compute.
Qed.

Lemma ptr_lines_keyed_on_last_octet_witness :
  forallb ptr_renderable (records_of sample_ptr_zone) = true
  /\ NamedServer.ptr_zone_content "1.168.192.in-addr.arpa" 1700000000
       sample_ptr_zone
     = Ok (NamedServer.ptr_header "1.168.192.in-addr.arpa" 1700000000
           +:+ lines_text (ptr_line <$> records_of sample_ptr_zone)).
Proof.
  assert (forallb ptr_renderable (records_of sample_ptr_zone) = true) as Hok
    by (vm_compute; reflexivity).
  split; [exact Hok|].
  exact (proj1 (ptr_lines_keyed_on_last_octet
                  "1.168.192.in-addr.arpa" 1700000000 sample_ptr_zone Hok)).
Defined.

(* ===================================================================== *)
(** ** Runs *)
(* ===================================================================== *)

Section Runs.
Context {A B : Type}.

Lemma run_bind (m : M A) (f : A -> M B) w h evs r :
  (m ≫= f) w h = (evs, r) ->
  (exists evs1 a evs2,
      m w h = (evs1, Ok a) /\ f a w (h ++ evs1) = (evs2, r) /\
      evs = evs1 ++ evs2)
  \/ (exists e, m w h = (evs, Raise e) /\ r = Raise e).
Proof.
  unfold mbind, M_bind, bind.
  destruct (m w h) as [evs1 [a|e]].
  - destruct (f a w (h ++ evs1)) as [evs2 r2] eqn:Hf.
    intros [= <- <-]. left. by exists evs1, a, evs2.
  - intros [= <- <-]. right. by exists e.
Qed.

Lemma run_try (body : M A) (handler : exn -> M A) w h evs r :
  try_except body handler w h = (evs, r) ->
  (exists a, body w h = (evs, Ok a) /\ r = Ok a)
  \/ (exists evs1 e evs2,
        body w h = (evs1, Raise e) /\ handler e w (h ++ evs1) = (evs2, r) /\
        evs = evs1 ++ evs2).
Proof.
  unfold try_except.
  destruct (body w h) as [evs1 [a|e]].
  - intros [= <- <-]. left. by exists a.
  - destruct (handler e w (h ++ evs1)) as [evs2 r2] eqn:Hh.
    intros [= <- <-]. right. by exists evs1, e, evs2.
Qed.
End Runs.

Lemma run_exec command w h evs r :
execute_command command w h = (evs, r) -> evs = [EvExec command r].
Proof. unfold execute_command. by intros [= <- <-]. Qed.

Lemma run_write path mode content w h evs r :
sftp_write path mode content w h = (evs, r) ->
evs = [EvWrite path mode content r].
Proof. unfold sftp_write. by intros [= <- <-]. Qed.

Lemma run_read path w h evs r :
sftp_read path w h = (evs, r) -> evs = [EvRead path r].
Proof. unfold sftp_read. by intros [= <- <-]. Qed.

Lemma run_logger level msg w h evs (r : result unit) :
logger level msg w h = (evs, r) -> evs = [EvLog level msg] /\ r = Ok tt.
Proof. unfold logger. by intros [= <- <-]. Qed.

Lemma run_ret {A} (a : A) w h evs r :
ret a w h = (evs, r) -> evs = [] /\ r = Ok a.
Proof. unfold ret. by intros [= <- <-]. Qed.

Lemma run_raise {A} e w h evs (r : result A) :
raise e w h = (evs, r) -> evs = [] /\ r = Raise e.
Proof. unfold raise. by intros [= <- <-]. Qed.

Lemma run_lift {A} (x : result A) w h evs r :
lift x w h = (evs, r) -> evs = [] /\ r = x.
Proof. unfold lift. by intros [= <- <-]. Qed.

Lemma run_time w h evs r :
time_time w h = (evs, r) -> evs = [] /\ r = Ok (clock w h).
Proof. unfold time_time. by intros [= <- <-]. Qed.

(** Symbolic execution of a run equation: every way the program can have
  gone, with the events of each. *)
Ltac run_step :=
match goal with
| H : @mbind M _ _ _ _ _ _ _ = (_, _) |- _ =>
    let H' := fresh H in
    apply run_bind in H;
    destruct H as [(? & ? & ? & H & H' & ?)|(? & H & ?)]
| H : try_except _ _ _ _ = (_, _) |- _ =>
    let H' := fresh H in
    apply run_try in H;
    destruct H as [(? & H & ?)|(? & ? & ? & H & H' & ?)]
| H : execute_command _ _ _ = (_, _) |- _ => apply run_exec in H
| H : sftp_write _ _ _ _ _ = (_, _) |- _ => apply run_write in H
| H : sftp_read _ _ _ = (_, _) |- _ => apply run_read in H
| H : logger _ _ _ _ = (_, _) |- _ => apply run_logger in H; destruct H
| H : ret _ _ _ = (_, _) |- _ => apply run_ret in H; destruct H
| H : raise _ _ _ = (_, _) |- _ => apply run_raise in H; destruct H
| H : lift _ _ _ = (_, _) |- _ => apply run_lift in H; destruct H
| H : time_time _ _ = (_, _) |- _ => apply run_time in H; destruct H
| H : for_each _ _ _ _ = (_, _) |- _ => progress cbn [for_each] in H
| H : (let '(_, _) := ?p in _) _ _ = (_, _) |- _ => destruct p
| H : (if ?b then _ else _) _ _ = (_, _) |- _ => destruct b eqn:?
| H : NamedServer.install _ _ = (_, _) |- _ => unfold NamedServer.install in H
end; simplify_eq.

Ltac run_inv := repeat run_step.

Lemma truthy_false s : truthy s = false -> s = EmptyString.
Proof. by destruct s. Qed.

Ltac split_in H :=
cbn [In app] in H;
repeat match type of H with
       | _ \/ _ => destruct H as [H|H]
       | False => destruct H
       | @eq event _ _ => try discriminate H
       end.

(** X8.  Whatever happens in a run of [add_zone], it uploads nothing but
    the rendered zone file, written in full to the zone's file, and the
    zone's stanza, appended to the main configuration. *)
Lemma add_zone_uploads w h zone_name zc evs r :
  NamedServer.add_zone zone_name zc w h = (evs, r) ->
  forall path mode content reply,
    In (EvWrite path mode content reply) evs ->
    (path = NamedServer.zone_file_path zone_name /\ mode = ModeW /\
     NamedServer.zone_content zone_name (clock w h) zc = Ok content)
    \/ (path = NamedServer.named_conf /\ mode = ModeA /\
        content = NamedServer.zone_conf zone_name
                    (default "master" (zc_type zc))).
Proof.
  unfold NamedServer.add_zone. intros Hrun path mode content reply Hin.
  run_inv; split_in Hin; simplify_eq; auto.
Qed.

(** X18.  Whatever happens in a run of [add_ptr_zone], it uploads nothing
    but the rendered reverse zone file, written in full to the reverse
    zone's file, and the reverse zone's stanza, appended to the main
    configuration. *)
Lemma add_ptr_zone_uploads w h network zc evs r :
  NamedServer.add_ptr_zone network zc w h = (evs, r) ->
  forall path mode content reply,
    In (EvWrite path mode content reply) evs ->
    exists reverse_zone,
      NamedServer.reverse_zone_of network = Ok reverse_zone /\
      ((path = NamedServer.zone_file_path reverse_zone /\ mode = ModeW /\
        NamedServer.ptr_zone_content reverse_zone (clock w h) zc = Ok content)
       \/ (path = NamedServer.named_conf /\ mode = ModeA /\
           content = NamedServer.ptr_zone_conf reverse_zone)).
Proof.
  unfold NamedServer.add_ptr_zone. intros Hrun path mode content reply Hin.
  run_inv; split_in Hin; simplify_eq;
    rewrite ?app_nil_r in *; eexists; split; eauto.
Qed.

(* ===================================================================== *)
(** ** Checks before the restart *)
(* ===================================================================== *)

Lemma no_ok_truthy s : truthy s && negb (str_in "OK" s) = false ->
  s <> EmptyString -> str_in "OK" s = false -> False.
Proof. destruct s; [done|]. cbn [truthy andb]. by intros ->%negb_false_iff. Qed.

Ltac close_run :=
  solve
    [ match goal with
      | H : truthy _ = false |- _ => apply truthy_false in H; done
      end
    | match goal with
      | H : truthy ?s && negb (str_in "OK" ?s) = false |- _ =>
          by destruct (no_ok_truthy s H)
      end
    | split; [by eexists|];
      let Hr := fresh in intros [? Hr]; split_in Hr ].

(** C2, as amended.  In every run of [configure] or [add_zone] in which the
    main-configuration check wrote to its error stream, or the zone-file
    check wrote to its error stream a text without [OK], the operation
    raises the configuration error and the restart command is never
    issued. *)
Theorem checker_error_aborts_before_restart w h op evs r :
  run_checked op w h = (evs, r) ->
  checker_error op evs ->
  raises_config_error r /\ ~ issued NamedServer.restart_command evs.
Proof.
  destruct op as [config|zone_name zc]; cbn [run_checked checker_error].
  - unfold NamedServer.configure, conf_check_failed, answered.
    intros Hrun (out & err & Hin & Hne).
    unfold NamedServer.backup_command, NamedServer.restart_command in *.
    run_inv; split_in Hin; simplify_eq; close_run.
  - unfold NamedServer.add_zone, conf_check_failed, answered.
    unfold NamedServer.checkzone_command, NamedServer.zone_file_path,
      NamedServer.zones_dir, NamedServer.restart_command,
      NamedServer.named_conf in *.
    intros Hrun [(out & err & Hin & Hne)|(out & err & Hin & Hne & Hok)].
    + run_inv; split_in Hin; simplify_eq; close_run.
    + run_inv; split_in Hin; simplify_eq; close_run.
Qed.

Lemma checker_error_aborts_before_restart_witness :
  checker_error (AddZone "example.com" sample_zone)
    (run_checked (AddZone "example.com" sample_zone) zone_rejecting_host []).1
  /\ raises_config_error
       (run_checked (AddZone "example.com" sample_zone) zone_rejecting_host []).2
  /\ ~ issued NamedServer.restart_command
       (run_checked (AddZone "example.com" sample_zone) zone_rejecting_host []).1.
Proof.
  assert (checker_error (AddZone "example.com" sample_zone)
            (run_checked (AddZone "example.com" sample_zone)
                         zone_rejecting_host []).1) as Herr.
  { right.
    exists EmptyString,
      "dns_master_load: /var/named/db.example.com:14: unexpected end of input".
    split; [vm_compute; tauto|]. split; [discriminate|reflexivity]. }
  split; [exact Herr|].
  exact (checker_error_aborts_before_restart
           zone_rejecting_host [] (AddZone "example.com" sample_zone) _ _
           (surjective_pairing _) Herr).
Defined.

(** C2, as the specification words it, fails: a zone-file check whose
    output has no [OK] anywhere, but whose error stream is empty, lets
    [add_zone] go on to the restart and return normally. *)
Lemma zone_check_output_without_ok_still_restarts :
  ~ (forall w h op evs r,
        run_checked op w h = (evs, r) ->
        checker_error_as_stated op evs ->
        raises_config_error r /\ ~ issued NamedServer.restart_command evs).
Proof.
  intros Hall.
  destruct (Hall stdout_reporting_host []
                   (AddZone "example.com" sample_zone) _ _
                   (surjective_pairing _)) as [_ Hnot].
  - right.
    exists "zone example.com/IN: not loaded due to errors.", EmptyString.
    split; [vm_compute; tauto|]. split; reflexivity.
  - apply Hnot. exists (Ok (EmptyString, EmptyString)). vm_compute. tauto.
Qed.

(* ===================================================================== *)
(** ** Rendering of the main configuration *)
(* ===================================================================== *)

Lemma configure_uploads w h config evs r :
  NamedServer.configure config w h = (evs, r) ->
  (forall content,
      In content (uploads_to NamedServer.named_conf evs) ->
      exists forwarder,
        config !! "forwarder" = Some forwarder /\
        content = NamedServer.named_conf_content forwarder)
  /\ (r = Ok tt ->
      exists forwarder,
        config !! "forwarder" = Some forwarder /\
        uploads_to NamedServer.named_conf evs
        = [NamedServer.named_conf_content forwarder] /\
        In NamedServer.backup_command (commands_of evs) /\
        uploads_to NamedServer.named_conf
          (after_command NamedServer.backup_command evs)
        = [NamedServer.named_conf_content forwarder]).
Proof.
  unfold NamedServer.configure, getitem. intros Hrun.
  destruct (config !! "forwarder") as [forwarder|] eqn:Hfw.
  - split.
    + intros content Hin. exists forwarder. split; [done|].
      run_inv; cbn -[NamedServer.named_conf_content] in Hin; intuition.
    + intros ->. exists forwarder. split; [done|].
      run_inv; cbn -[NamedServer.named_conf_content]; intuition.
  - split.
    + intros content Hin. run_inv; cbn in Hin; intuition.
    + intros ->. run_inv.
Qed.

(** C3.  Two calls of [configure] in succession with the same options
    upload the same main configuration, a function of the options alone:
    every upload of either call is the template filled with the forwarder,
    and when both calls succeed each uploads it exactly once, the second
    after issuing the backup copy again. *)
Theorem configure_twice_renders_same_content w h config evs1 r1 evs2 r2 :
  NamedServer.configure config w h = (evs1, r1) ->
  NamedServer.configure config w (h ++ evs1) = (evs2, r2) ->
  (forall content,
      In content (uploads_to NamedServer.named_conf evs1
                  ++ uploads_to NamedServer.named_conf evs2) ->
      exists forwarder,
        config !! "forwarder" = Some forwarder /\
        content = NamedServer.named_conf_content forwarder)
  /\ (r1 = Ok tt -> r2 = Ok tt ->
      exists forwarder,
        config !! "forwarder" = Some forwarder /\
        uploads_to NamedServer.named_conf evs1
        = [NamedServer.named_conf_content forwarder] /\
        uploads_to NamedServer.named_conf evs2
        = [NamedServer.named_conf_content forwarder] /\
        In NamedServer.backup_command (commands_of evs2) /\
        uploads_to NamedServer.named_conf
          (after_command NamedServer.backup_command evs2)
        = [NamedServer.named_conf_content forwarder]).
Proof.
  intros [Hall1 Hok1]%configure_uploads [Hall2 Hok2]%configure_uploads.
  split.
  - intros content [Hin|Hin]%in_app_or; auto.
  - intros H1 H2.
    destruct (Hok1 H1) as (forwarder & Hfw & Hup1 & _).
    destruct (Hok2 H2) as (forwarder' & Hfw' & Hup2 & Hbak & Hafter).
    assert (forwarder' = forwarder) as -> by congruence.
    by exists forwarder.
Qed.

Lemma configure_twice_renders_same_content_witness :
  (NamedServer.configure sample_options healthy_host []).2 = Ok tt
  /\ (NamedServer.configure sample_options healthy_host
        ([] ++ (NamedServer.configure sample_options healthy_host []).1)).2
     = Ok tt
  /\ uploads_to NamedServer.named_conf
       (NamedServer.configure sample_options healthy_host []).1
     = uploads_to NamedServer.named_conf
         (NamedServer.configure sample_options healthy_host
            ([] ++ (NamedServer.configure sample_options healthy_host []).1)).1.
Proof.
  assert ((NamedServer.configure sample_options healthy_host []).2 = Ok tt)
    as H1 by (vm_compute; reflexivity).
  assert ((NamedServer.configure sample_options healthy_host
             ([] ++ (NamedServer.configure sample_options healthy_host []).1)).2
          = Ok tt) as H2 by (vm_compute; reflexivity).
  split; [exact H1|]. split; [exact H2|].
  destruct (configure_twice_renders_same_content
              healthy_host [] sample_options _ _ _ _
              (surjective_pairing _) (surjective_pairing _)) as [_ Hboth].
  destruct (Hboth H1 H2) as (forwarder & _ & Hup1 & Hup2 & _).
  rewrite Hup1, Hup2. reflexivity.
Defined.

(* ===================================================================== *)
(** ** The dnsmasq configuration *)
(* ===================================================================== *)

Lemma two_lines_one_break (first second : string) :
  count_char "010" first = 0 -> count_char "010" second = 0 ->
  count_char "010" (join NL [first; second]) = 1.
Proof.
  intros H1 H2. unfold join. cbn [String.concat].
  rewrite !count_char_app, H1, H2. reflexivity.
Qed.

(** C9.  Whatever the dnsmasq [configure] uploads goes to the dnsmasq
    configuration file, rewritten in full, and is two lines joined by one
    line break: [server=] with the upstream server of the options, then
    [cache-size=] with their cache size ([0] when absent); a run that
    succeeds uploads it exactly once. *)
Theorem dnsmasq_configuration_has_two_lines w h config evs r :
  DnsmasqServer.configure config w h = (evs, r) ->
  (forall path mode content reply,
      In (EvWrite path mode content reply) evs ->
      path = DnsmasqServer.config_path /\ mode = ModeW /\
      exists upstream,
        config !! "upstream_dns" = Some upstream /\
        content = join NL ["server=" +:+ upstream;
                           "cache-size=" +:+ dict_get config "cache_size" "0"]
        /\ (count_char "010" upstream = 0 ->
            count_char "010" (dict_get config "cache_size" "0") = 0 ->
            count_char "010" content = 1))
  /\ (r = Ok tt -> length (uploads_to DnsmasqServer.config_path evs) = 1).
Proof.
  unfold DnsmasqServer.configure, DnsmasqServer.install,
    DnsmasqServer.conf_lines, getitem.
  intros Hrun.
  destruct (config !! "upstream_dns") as [upstream|] eqn:Hup;
    cbn [mbind result_bind rbind] in Hrun.
  - split.
    + intros path mode content reply Hin.
      assert (count_char "010" upstream = 0 ->
              count_char "010" (dict_get config "cache_size" "0") = 0 ->
              count_char "010"
                (join NL ["server=" +:+ upstream;
                          "cache-size=" +:+ dict_get config "cache_size" "0"])
              = 1) as Hbreaks.
      { intros Hu Hc. apply two_lines_one_break.
        - by rewrite count_char_app, Hu.
        - by rewrite count_char_app, Hc. }
      run_inv; split_in Hin; simplify_eq; eauto 8.
    + intros ->. run_inv; done.
  - split.
    + intros path mode content reply Hin.
      run_inv; split_in Hin; simplify_eq.
    + intros ->. run_inv.
Qed.

Lemma dnsmasq_configuration_has_two_lines_witness :
  (DnsmasqServer.configure sample_dnsmasq_options healthy_host []).2 = Ok tt
  /\ length (uploads_to DnsmasqServer.config_path
               (DnsmasqServer.configure sample_dnsmasq_options
                                        healthy_host []).1) = 1.
Proof.
  assert ((DnsmasqServer.configure sample_dnsmasq_options healthy_host []).2
          = Ok tt) as Hok by (vm_compute; reflexivity).
  split; [exact Hok|].
  exact (proj2 (dnsmasq_configuration_has_two_lines
                  healthy_host [] sample_dnsmasq_options _ _
                  (surjective_pairing _)) Hok).
Defined.

(* ===================================================================== *)
(** ** Failures *)
(* ===================================================================== *)

(** C8.  On a host whose service reports [inactive] after the restart,
    [configure] logs success and returns normally: the non-active status
    raises nothing, because the text [inactive] holds the text [active]. *)
Theorem configure_accepts_inactive_service :
  answered "systemctl is-active named"
    (NamedServer.configure sample_options inactive_host []).1
    ("inactive" +:+ NL) EmptyString
  /\ In (EvLog INFO "BIND configured and running successfully")
        (NamedServer.configure sample_options inactive_host []).1
  /\ (NamedServer.configure sample_options inactive_host []).2 = Ok tt.
Proof.
  vm_compute. repeat split; tauto.
Qed.

(** [install] puts its package query before its [try]: a transport failure
    there leaves the operation as it is, not as a configuration error. *)
Lemma install_query_failure_is_not_wrapped :
  NamedServer.install dead_host [] =
  ([EvExec "rpm -q bind" (Raise (LibraryError "SSH session not active"))],
   Raise (LibraryError "SSH session not active")).
Proof. reflexivity. Qed.

(** Whatever [configure], [add_zone], [add_ptr_zone] or [delete_zone]
    raises is the configuration error, its message the operation's prefix
    followed by the message of what went wrong. *)
Lemma wrapped_failure w h op evs e :
  run_wrapped op w h = (evs, Raise e) ->
  exists trigger, e = DNSConfigError (wrap_prefix op +:+ str_exn trigger).
Proof.
  destruct op; cbn [run_wrapped wrap_prefix];
    unfold NamedServer.configure, NamedServer.add_zone,
      NamedServer.add_ptr_zone, NamedServer.delete_zone;
    intros Hrun; apply run_try in Hrun;
    destruct Hrun as [(? & _ & ?)|(evs1 & trigger & evs2 & _ & Hh & _)];
    [done| |done| |done| |done| ];
    exists trigger; run_inv; done.
Qed.

(** A rejected main configuration, from end to end: the checker's text
    reaches the caller inside the wrapped message, and nothing is issued
    after the check. *)
Lemma configure_rejected_example :
  (NamedServer.configure sample_options rejecting_host []).2
  = Raise (DNSConfigError
             ("Failed to configure BIND: named.conf syntax error: "
              +:+ "/etc/named.conf:13: missing ';' before '}'"))
  /\ commands_of (NamedServer.configure sample_options rejecting_host []).1
     = ["rpm -q bind"; NamedServer.backup_command; "named-checkconf"].
Proof. by vm_compute. Qed.

(** A failed [connect] raises the configuration error, naming the host. *)
Lemma connect_failure_names_host w h self evs e :
  SSHClient.connect self w h = (evs, Raise e) ->
  exists trigger,
    e = DNSConfigError ("Failed to connect to " +:+ SSHClient.hostname self
                        +:+ ": " +:+ str_exn trigger).
Proof.
  unfold SSHClient.connect. intros Hrun. apply run_try in Hrun.
  destruct Hrun as [(? & _ & ?)|(evs1 & trigger & evs2 & _ & Hh & _)]; [done|].
  exists trigger. run_inv. done.
Qed.

(* ===================================================================== *)
(** ** Deleting a zone *)
(* ===================================================================== *)

(** C1.  On a host whose main configuration holds the simple stanzas of
    [example.com] and [example.org], [delete_zone] of [example.com] removes
    the zone file, downloads the configuration and stops there: what it
    downloaded is bytes, [re.sub] refuses to search bytes with a text
    pattern, and the call logs the failure and raises the configuration
    error.  Nothing is uploaded: the stanza of [example.com] is not
    removed. *)
Theorem delete_zone_removes_no_stanza :
  NamedServer.delete_zone "example.com" (scripted_host [] sample_conf) []
  = ([EvExec "rm -f /var/named/db.example.com" (Ok (EmptyString, EmptyString));
      EvRead "/etc/named.conf" (Ok (encode sample_conf));
      EvLog ERROR
        ("Failed to delete zone example.com: "
         +:+ "cannot use a string pattern on a bytes-like object")],
     Raise (DNSConfigError
              ("Zone deletion failed: "
               +:+ "cannot use a string pattern on a bytes-like object")))
  /\ uploads_to NamedServer.named_conf
       (NamedServer.delete_zone "example.com"
                                (scripted_host [] sample_conf) []).1
     = []
  /\ str_in (simple_stanza "example.com" (master_body "example.com"))
            sample_conf
     = true.
Proof. by vm_compute. Qed.

(* ===================================================================== *)
(** ** Installing the packages *)
(* ===================================================================== *)

(** X1.  When the package query [rpm -q bind] prints a text that holds
    [bind-], [NamedServer.install] issues no further command: the run is the
    query and one log line, and it returns normally. *)
Theorem install_skips_when_present w h evs r stdout stderr :
  NamedServer.install w h = (evs, r) ->
  answered "rpm -q bind" evs stdout stderr ->
  str_in "bind-" stdout = true ->
  evs = [EvExec "rpm -q bind" (Ok (stdout, stderr));
         EvLog INFO "BIND is already installed"]
  /\ r = Ok tt.
Proof.
  unfold answered. intros Hrun Hin Hpresent.
  run_inv; split_in Hin; simplify_eq; first [done|congruence].
Qed.

Lemma install_skips_when_present_witness :
  (NamedServer.install healthy_host []).1
  = [EvExec "rpm -q bind" (Ok ("bind-9.11.4-26.el7", EmptyString));
     EvLog INFO "BIND is already installed"]
  /\ (NamedServer.install healthy_host []).2 = Ok tt.
Proof.
  apply (install_skips_when_present healthy_host [] _ _
           "bind-9.11.4-26.el7" EmptyString (surjective_pairing _)).
  - vm_compute. tauto.
  - reflexivity.
Defined.

(** X2.  When the package query prints no [bind-], a successful
    [NamedServer.install] has issued exactly the query, the yum install, the
    enable and the start, in this order.  When it raises, the last thing it
    did was to issue one of those three commands, which failed in the
    transport; the commands issued are the query followed by the three up
    to that one, and the exception is the configuration error
    [Failed to install BIND: ...] around the message of that failure. *)
Theorem install_when_absent w h evs r stdout stderr :
  NamedServer.install w h = (evs, r) ->
  answered "rpm -q bind" evs stdout stderr ->
  str_in "bind-" stdout = false ->
  (r = Ok tt -> commands_of evs = "rpm -q bind" :: install_commands)
  /\ (forall e, r = Raise e ->
      exists trigger command attempted,
        last evs = Some (EvExec command (Raise trigger))
        /\ e = DNSConfigError ("Failed to install BIND: " +:+ str_exn trigger)
        /\ commands_of evs = "rpm -q bind" :: attempted
        /\ attempted `prefix_of` install_commands
        /\ last attempted = Some command).
Proof.
  unfold answered, install_commands. intros Hrun Hin Habsent.
  split.
  - intros ->. run_inv; split_in Hin; simplify_eq; first [done|congruence].
  - intros e ->. run_inv; split_in Hin; simplify_eq; try congruence;
      eexists _, _, _; (split; [reflexivity|]); (split; [reflexivity|]);
      (split; [reflexivity|]); (split; [|reflexivity]).
    + by exists [].
    + by eexists [_].
    + by eexists [_; _].
Qed.

Lemma install_when_absent_witness :
  exists trigger command attempted,
    last (NamedServer.install yum_failing_host []).1
    = Some (EvExec command (Raise trigger))
    /\ DNSConfigError "Failed to install BIND: SSH session not active"
       = DNSConfigError ("Failed to install BIND: " +:+ str_exn trigger)
    /\ commands_of (NamedServer.install yum_failing_host []).1
       = "rpm -q bind" :: attempted
    /\ attempted `prefix_of` install_commands
    /\ last attempted = Some command.
Proof.
  apply (proj2 (install_when_absent yum_failing_host [] _ _
                  EmptyString EmptyString (surjective_pairing _)
                  (or_introl eq_refl) eq_refl)).
  reflexivity.
Defined.

(** X3.  [DnsmasqServer.install]: when the package query prints a text that
    holds [dnsmasq-] the query is the only command and the call returns
    normally; otherwise a successful call has issued the query, the yum
    install, the enable and the start, in this order, and a failing one
    ends with one of those three commands failing in the transport and
    raises the configuration error [Failed to install dnsmasq: ...] around
    the message of that failure. *)
Theorem dnsmasq_install_outcomes w h evs r stdout stderr :
  DnsmasqServer.install w h = (evs, r) ->
  answered "rpm -q dnsmasq" evs stdout stderr ->
  (str_in "dnsmasq-" stdout = true ->
   commands_of evs = ["rpm -q dnsmasq"] /\ r = Ok tt)
  /\ (str_in "dnsmasq-" stdout = false ->
      (r = Ok tt ->
       commands_of evs = "rpm -q dnsmasq" :: dnsmasq_install_commands)
      /\ (forall e, r = Raise e ->
          exists trigger command,
            last evs = Some (EvExec command (Raise trigger))
            /\ In command dnsmasq_install_commands
            /\ e = DNSConfigError
                     ("Failed to install dnsmasq: " +:+ str_exn trigger))).
Proof.
  unfold DnsmasqServer.install, answered, dnsmasq_install_commands.
  intros Hrun Hin. split.
  - intros Hpresent.
    run_inv; split_in Hin; simplify_eq; first [done|congruence].
  - intros Habsent. split.
    + intros ->. run_inv; split_in Hin; simplify_eq; first [done|congruence].
    + intros e ->. run_inv; split_in Hin; simplify_eq; try congruence;
        eexists _, _; (split; [reflexivity|]); (split; [|reflexivity]);
        cbn [In]; tauto.
Qed.

Lemma dnsmasq_install_outcomes_witness :
  exists trigger command,
    last (DnsmasqServer.install yum_failing_host []).1
    = Some (EvExec command (Raise trigger))
    /\ In command dnsmasq_install_commands
    /\ DNSConfigError "Failed to install dnsmasq: SSH session not active"
       = DNSConfigError ("Failed to install dnsmasq: " +:+ str_exn trigger).
Proof.
  apply (proj2 (proj2 (dnsmasq_install_outcomes yum_failing_host [] _ _
                         EmptyString EmptyString (surjective_pairing _)
                         (or_introl eq_refl)) eq_refl)).
  reflexivity.
Defined.

(* ===================================================================== *)
(** ** What a failing operation leaves in the log *)
(* ===================================================================== *)

(** Each of the four operations is its guarded part under one handler,
    which logs the message of what was raised and raises the configuration
    error around the same message. *)
Lemma run_wrapped_guards (op : wrapped_op) :
  run_wrapped op
  = try_except (guarded op)
      (fun e =>
         logger ERROR (error_log op (str_exn e)) ;;
         raise (DNSConfigError (wrap_prefix op +:+ str_exn e))).
Proof. destruct op; reflexivity. Qed.

(** X4.  When [configure], [add_zone], [add_ptr_zone] or [delete_zone]
    raises, its guarded part has raised some exception, the trigger; the
    run is the run of the guarded part followed by one log line at error
    level, the operation's own text and the message of the trigger, and
    the exception is the configuration error with the operation's prefix
    and the message of the trigger. *)
Theorem failure_is_logged_then_wrapped w h op evs e :
  run_wrapped op w h = (evs, Raise e) ->
  exists trigger before,
    guarded op w h = (before, Raise trigger)
    /\ evs = before ++ [EvLog ERROR (error_log op (str_exn trigger))]
    /\ e = DNSConfigError (wrap_prefix op +:+ str_exn trigger).
Proof.
  rewrite run_wrapped_guards. intros Hrun. apply run_try in Hrun.
  destruct Hrun as [(? & _ & ?)|(before & trigger & evs2 & Hbody & Hh & ->)];
    [done|].
  exists trigger, before. split; [exact Hbody|].
  run_inv. by rewrite app_nil_r.
Qed.

Lemma failure_is_logged_then_wrapped_witness :
  exists trigger before,
    guarded (OpAddPtrZone "192.168" sample_ptr_zone) healthy_host []
    = (before, Raise trigger)
    /\ (run_wrapped (OpAddPtrZone "192.168" sample_ptr_zone) healthy_host []).1
       = before ++ [EvLog ERROR (error_log (OpAddPtrZone "192.168" sample_ptr_zone)
                                           (str_exn trigger))]
    /\ DNSConfigError "PTR zone configuration failed: list index out of range"
       = DNSConfigError (wrap_prefix (OpAddPtrZone "192.168" sample_ptr_zone)
                         +:+ str_exn trigger).
Proof.
  apply (failure_is_logged_then_wrapped healthy_host []).
  vm_compute. reflexivity.
Defined.

(* ===================================================================== *)
(** ** [configure] *)
(* ===================================================================== *)

(** X5.  Without a [forwarder] in its options, [configure] uploads nothing,
    never restarts the service and raises the configuration error; once the
    backup command has been answered the error is
    [Failed to configure BIND: 'forwarder']. *)
Theorem configure_without_forwarder w h config evs r :
  NamedServer.configure config w h = (evs, r) ->
  config !! "forwarder" = None ->
  no_upload evs
  /\ raises_config_error r
  /\ ~ issued NamedServer.restart_command evs
  /\ (forall stdout stderr,
        answered NamedServer.backup_command evs stdout stderr ->
        r = Raise (DNSConfigError "Failed to configure BIND: 'forwarder'")).
Proof.
  unfold NamedServer.configure, getitem, no_upload, answered.
  intros Hrun Hnone. rewrite Hnone in Hrun.
  unfold NamedServer.backup_command, NamedServer.restart_command in *.
  split; [|split; [|split]].
  - intros path mode content reply Hin. run_inv; split_in Hin.
  - run_inv; by eexists.
  - intros [reply Hin]. run_inv; split_in Hin.
  - intros stdout stderr Hin. run_inv; split_in Hin; simplify_eq; done.
Qed.

Lemma configure_without_forwarder_witness :
  no_upload (NamedServer.configure ∅ healthy_host []).1
  /\ raises_config_error (NamedServer.configure ∅ healthy_host []).2
  /\ ~ issued NamedServer.restart_command
         (NamedServer.configure ∅ healthy_host []).1
  /\ (forall stdout stderr,
        answered NamedServer.backup_command
                 (NamedServer.configure ∅ healthy_host []).1 stdout stderr ->
        (NamedServer.configure ∅ healthy_host []).2
        = Raise (DNSConfigError "Failed to configure BIND: 'forwarder'")).
Proof.
  apply (configure_without_forwarder healthy_host [] ∅ _ _
           (surjective_pairing _)).
  reflexivity.
Defined.

(** X6.  Every command [configure] issues is the package query, one of the
    three install commands or one of its own seven fixed commands: none
    depends on the options.  A successful run has issued the query, then
    the three install commands unless the answer to the query holds
    [bind-], then the seven commands, in this order. *)
Theorem configure_commands_are_fixed w h config evs r :
  NamedServer.configure config w h = (evs, r) ->
  (forall command,
      In command (commands_of evs) ->
      In command ("rpm -q bind" :: install_commands ++ configure_commands))
  /\ (r = Ok tt ->
      exists stdout stderr,
        answered "rpm -q bind" evs stdout stderr
        /\ commands_of evs
           = "rpm -q bind"
             :: (if str_in "bind-" stdout then [] else install_commands)
                ++ configure_commands).
Proof.
  unfold NamedServer.configure, answered. intros Hrun. split.
  - intros command Hin.
    run_inv; cbn in Hin |- *; intuition.
  - intros ->.
    run_inv; eexists _, _; (split; [by left|]);
      match goal with H : str_in "bind-" _ = _ |- _ => rewrite H end;
      reflexivity.
Qed.

Lemma configure_commands_are_fixed_witness :
  exists stdout stderr,
    answered "rpm -q bind"
      (NamedServer.configure sample_options fresh_host []).1 stdout stderr
    /\ commands_of (NamedServer.configure sample_options fresh_host []).1
       = "rpm -q bind"
         :: (if str_in "bind-" stdout then [] else install_commands)
            ++ configure_commands.
Proof.
  apply (configure_commands_are_fixed fresh_host [] sample_options _ _
           (surjective_pairing _)).
  vm_compute. reflexivity.
Defined.

(** X7.  When the syntax check of [configure] reports on its error stream,
    the new configuration has already been uploaded, once, over the old
    one, and no command follows the check: the backup copy is not put
    back. *)
Theorem configure_rejected_upload_stays w h config evs r :
  NamedServer.configure config w h = (evs, r) ->
  conf_check_failed evs ->
  exists forwarder,
    config !! "forwarder" = Some forwarder
    /\ uploads_to NamedServer.named_conf evs
       = [NamedServer.named_conf_content forwarder]
    /\ commands_of (after_command "named-checkconf" evs) = [].
Proof.
  unfold NamedServer.configure, conf_check_failed, answered, getitem.
  intros Hrun (out & err & Hin & Hne).
  unfold NamedServer.backup_command, NamedServer.restart_command in *.
  destruct (config !! "forwarder") as [forwarder|] eqn:Hfw.
  - exists forwarder. split; [done|].
    run_inv; split_in Hin; simplify_eq;
      try (match goal with
           | H : truthy _ = false |- _ => apply truthy_false in H; done
           end);
      split; reflexivity.
  - run_inv; split_in Hin; simplify_eq.
Qed.

Lemma configure_rejected_upload_stays_witness :
  exists forwarder,
    sample_options !! "forwarder" = Some forwarder
    /\ uploads_to NamedServer.named_conf
         (NamedServer.configure sample_options rejecting_host []).1
       = [NamedServer.named_conf_content forwarder]
    /\ commands_of
         (after_command "named-checkconf"
            (NamedServer.configure sample_options rejecting_host []).1) = [].
Proof.
  apply (configure_rejected_upload_stays rejecting_host [] sample_options _ _
           (surjective_pairing _)).
  exists EmptyString, "/etc/named.conf:13: missing ';' before '}'".
  split; [vm_compute; tauto|discriminate].
Defined.

(* ===================================================================== *)
(** ** [add_zone] *)
(* ===================================================================== *)

Lemma add_zone_uploads_witness :
  (NamedServer.add_zone "example.com" sample_zone healthy_host []).2 = Ok tt
  /\ forall path mode content reply,
       In (EvWrite path mode content reply)
          (NamedServer.add_zone "example.com" sample_zone healthy_host []).1 ->
       (path = NamedServer.zone_file_path "example.com" /\ mode = ModeW /\
        NamedServer.zone_content "example.com" (clock healthy_host [])
                                 sample_zone
        = Ok content)
       \/ (path = NamedServer.named_conf /\ mode = ModeA /\
           content = NamedServer.zone_conf "example.com"
                       (default "master" (zc_type sample_zone))).
Proof.
  split; [vm_compute; reflexivity|].
  exact (add_zone_uploads healthy_host [] "example.com" sample_zone _ _
           (surjective_pairing _)).
Defined.

Lemma add_a_records_ok records acc content :
  NamedServer.add_a_records records acc = Ok content ->
  Forall (fun record =>
            exists type, record !! "type" = Some type /\
              (type = "A" -> is_Some (record !! "name")
                             /\ is_Some (record !! "value"))) records.
Proof.
  revert acc. induction records as [|record rest IH]; intros acc; [done|].
  rewrite add_a_records_step.
  destruct (record !! "type") as [type|] eqn:Ht; [|done].
  destruct (String.eqb_spec type "A") as [->|Hne].
  - destruct (record !! "name") as [name|] eqn:Hn; [|done].
    destruct (record !! "value") as [value|] eqn:Hv; [|done].
    intros Hrest%IH. constructor; [|done]. exists "A". by rewrite Hn, Hv.
  - intros Hrest%IH. constructor; [|done]. exists type. split; [done|].
    by intros ->.
Qed.

Lemma add_cname_records_ok records acc content :
  NamedServer.add_cname_records records acc = Ok content ->
  Forall (fun record =>
            exists type, record !! "type" = Some type /\
              (type = "CNAME" -> is_Some (record !! "name")
                                 /\ is_Some (record !! "value"))) records.
Proof.
  revert acc. induction records as [|record rest IH]; intros acc; [done|].
  rewrite add_cname_records_step.
  destruct (record !! "type") as [type|] eqn:Ht; [|done].
  destruct (String.eqb_spec type "CNAME") as [->|Hne].
  - destruct (record !! "value") as [value|] eqn:Hv; [|done].
    destruct (record !! "name") as [name|] eqn:Hn; [|done].
    intros Hrest%IH. constructor; [|done]. exists "CNAME". by rewrite Hn, Hv.
  - intros Hrest%IH. constructor; [|done]. exists type. split; [done|].
    by intros ->.
Qed.

(** X9.  The zone file of [add_zone] can be rendered exactly when every
    record has a [type] and every record of type [A] or [CNAME] has a
    [name] and a [value]; a record of another type needs neither. *)
Theorem zone_content_ok_iff_renderable zone_name serial zc :
  (exists content, NamedServer.zone_content zone_name serial zc = Ok content)
  <-> forallb renderable (records_of zc) = true.
Proof.
  split.
  - intros [content Hc]. unfold NamedServer.zone_content in Hc.
    destruct (NamedServer.add_a_records _ _) as [with_a|] eqn:Ha; [|done].
    cbn [mbind result_bind rbind] in Hc.
    apply add_a_records_ok in Ha. apply add_cname_records_ok in Hc.
    apply forallb_forall. intros record Hin.
    rewrite Forall_forall in Ha, Hc.
    apply list_elem_of_In in Hin.
    destruct (Ha _ Hin) as (type & Ht & HA).
    destruct (Hc _ Hin) as (type' & Ht' & HC).
    assert (type' = type) as -> by congruence.
    unfold renderable. rewrite Ht.
    destruct (String.eqb_spec type "A") as [->|HnA]; cbn [orb].
    + destruct (HA eq_refl) as [Hn Hv].
      by rewrite !bool_decide_eq_true_2.
    + destruct (String.eqb_spec type "CNAME") as [->|HnC]; [|done].
      destruct (HC eq_refl) as [Hn Hv].
      by rewrite !bool_decide_eq_true_2.
  - intros Hok. unfold NamedServer.zone_content.
    rewrite (add_a_records_lines _ _ Hok). cbn [mbind result_bind rbind].
    rewrite (add_cname_records_lines _ _ Hok). by eexists.
Qed.

Lemma zone_content_ok_iff_renderable_witness :
  exists content,
    NamedServer.zone_content "example.com" 1700000000 sample_zone
    = Ok content.
Proof.
  apply (proj2 (zone_content_ok_iff_renderable
                  "example.com" 1700000000 sample_zone)).
  vm_compute. reflexivity.
Defined.

(** X10.  When the zone file cannot be rendered, [add_zone] touches nothing
    on the host: the run is one log line at error level, and the exception
    is [Zone configuration failed: ...] around the message of what the
    rendering raised. *)
Theorem add_zone_with_unreadable_record w h zone_name zc e :
  NamedServer.zone_content zone_name (clock w h) zc = Raise e ->
  NamedServer.add_zone zone_name zc w h
  = ([EvLog ERROR ("Failed to add zone " +:+ zone_name +:+ ": " +:+ str_exn e)],
     Raise (DNSConfigError ("Zone configuration failed: " +:+ str_exn e))).
Proof.
  intros Hcontent.
  unfold NamedServer.add_zone, try_except, mbind, M_bind, bind, time_time, lift.
  cbn. rewrite app_nil_r, Hcontent. reflexivity.
Qed.

Lemma add_zone_with_unreadable_record_witness :
  NamedServer.add_zone "example.com" sample_bad_zone healthy_host []
  = ([EvLog ERROR ("Failed to add zone " +:+ "example.com" +:+ ": "
                   +:+ str_exn (KeyError "type"))],
     Raise (DNSConfigError ("Zone configuration failed: "
                            +:+ str_exn (KeyError "type")))).
Proof.
  apply add_zone_with_unreadable_record. vm_compute. reflexivity.
Defined.

(** X11.  A successful [add_zone] has issued, in this order, the three
    commands on the zone file, the check of the main configuration, the
    check of the zone file and the restart; it has uploaded the rendered
    zone file and then appended the stanza, and nothing else. *)
Theorem add_zone_success_steps w h zone_name zc evs :
  NamedServer.add_zone zone_name zc w h = (evs, Ok tt) ->
  commands_of evs = add_zone_commands zone_name
  /\ exists content,
       NamedServer.zone_content zone_name (clock w h) zc = Ok content
       /\ omap (fun ev => match ev with
                          | EvWrite path mode text _ => Some (path, mode, text)
                          | _ => None
                          end) evs
          = [(NamedServer.zone_file_path zone_name, ModeW, content);
             (NamedServer.named_conf, ModeA,
              NamedServer.zone_conf zone_name (default "master" (zc_type zc)))].
Proof.
  unfold NamedServer.add_zone. intros Hrun.
  run_inv; split; [reflexivity|]; eexists; split; eauto.
Qed.

Lemma add_zone_success_steps_witness :
  commands_of (NamedServer.add_zone "example.com" sample_zone healthy_host []).1
  = add_zone_commands "example.com".
Proof.
  apply (add_zone_success_steps healthy_host [] "example.com" sample_zone).
  vm_compute. reflexivity.
Defined.

(** X12.  When the check of the main configuration reports on its error
    stream, [add_zone] has already written the zone file and appended the
    stanza, and the check is the last command it issues: neither upload is
    undone and the service is not restarted. *)
Theorem add_zone_rejected_stanza_stays w h zone_name zc evs r :
  NamedServer.add_zone zone_name zc w h = (evs, r) ->
  conf_check_failed evs ->
  commands_of evs
  = ["chown root:named " +:+ NamedServer.zone_file_path zone_name;
     "chmod 640 " +:+ NamedServer.zone_file_path zone_name;
     "restorecon -v " +:+ NamedServer.zone_file_path zone_name;
     "named-checkconf"]
  /\ exists content,
       omap (fun ev => match ev with
                       | EvWrite path mode text _ => Some (path, mode, text)
                       | _ => None
                       end) evs
       = [(NamedServer.zone_file_path zone_name, ModeW, content);
          (NamedServer.named_conf, ModeA,
           NamedServer.zone_conf zone_name (default "master" (zc_type zc)))].
Proof.
  unfold NamedServer.add_zone, conf_check_failed, answered.
  unfold NamedServer.checkzone_command, NamedServer.zone_file_path,
    NamedServer.zones_dir, NamedServer.restart_command,
    NamedServer.named_conf in *.
  intros Hrun (out & err & Hin & Hne).
  run_inv; split_in Hin; simplify_eq;
    try (match goal with
         | H : truthy _ = false |- _ => apply truthy_false in H; done
         end);
    (split; [reflexivity|]); eexists; reflexivity.
Qed.

Lemma add_zone_rejected_stanza_stays_witness :
  conf_check_failed
    (NamedServer.add_zone "example.com" sample_zone rejecting_host []).1
  /\ commands_of
       (NamedServer.add_zone "example.com" sample_zone rejecting_host []).1
     = ["chown root:named " +:+ NamedServer.zone_file_path "example.com";
        "chmod 640 " +:+ NamedServer.zone_file_path "example.com";
        "restorecon -v " +:+ NamedServer.zone_file_path "example.com";
        "named-checkconf"].
Proof.
  assert (conf_check_failed
            (NamedServer.add_zone "example.com" sample_zone
                                  rejecting_host []).1) as Hfailed.
  { exists EmptyString, "/etc/named.conf:13: missing ';' before '}'".
    split; [vm_compute; tauto|discriminate]. }
  split; [exact Hfailed|].
  apply (add_zone_rejected_stanza_stays rejecting_host [] "example.com"
           sample_zone _ _ (surjective_pairing _) Hfailed).
Defined.

(** X13.  The dot [add_zone] puts after the value of a CNAME record is put
    once: a value that went through [cname_value] is left as it is by a
    second pass, and a value that holds a dot ends with a dot afterwards. *)
Theorem cname_value_idempotent (value : string) :
  NamedServer.cname_value (NamedServer.cname_value value)
  = NamedServer.cname_value value
  /\ (str_in "." value = true ->
      endswith (NamedServer.cname_value value) "." = true).
Proof.
  unfold NamedServer.cname_value.
  destruct (str_in "." value) eqn:Hdot; [|by rewrite Hdot].
  destruct (endswith value ".") eqn:Hend; cbn [negb].
  - by rewrite Hdot, Hend.
  - assert (endswith (value +:+ ".") "." = true) as Hend'
      by (apply endswith_spec; by exists value).
    assert (str_in "." (value +:+ ".") = true) as Hdot'
      by (apply str_in_spec; by exists value, "").
    by rewrite Hdot', Hend'.
Qed.

Lemma cname_value_idempotent_witness :
  endswith (NamedServer.cname_value "mail.example.com") "." = true.
Proof.
  apply (proj2 (cname_value_idempotent "mail.example.com")). reflexivity.
Defined.

(* ===================================================================== *)
(** ** [add_ptr_zone] *)
(* ===================================================================== *)

(** X14.  The name of the reverse zone is made of the first three
    dot-separated fields of the network, in reverse order: three fields are
    enough, whatever follows the third is ignored, and a network of one or
    two fields raises [IndexError]. *)
Theorem reverse_zone_ignores_later_fields a b c rest :
  dot_free a -> dot_free b -> dot_free c ->
  NamedServer.reverse_zone_of (a +:+ "." +:+ b +:+ "." +:+ c)
  = Ok (c +:+ "." +:+ b +:+ "." +:+ a +:+ ".in-addr.arpa")
  /\ NamedServer.reverse_zone_of
       (a +:+ "." +:+ b +:+ "." +:+ c +:+ "." +:+ rest)
     = Ok (c +:+ "." +:+ b +:+ "." +:+ a +:+ ".in-addr.arpa")
  /\ NamedServer.reverse_zone_of (a +:+ "." +:+ b) = Raise IndexError
  /\ NamedServer.reverse_zone_of a = Raise IndexError.
Proof.
  intros Ha Hb Hc. unfold NamedServer.reverse_zone_of.
  rewrite !split_field by done.
  rewrite (split_dot_free a), (split_dot_free b), (split_dot_free c) by done.
  repeat split; reflexivity.
Qed.

Lemma reverse_zone_ignores_later_fields_witness :
  NamedServer.reverse_zone_of ("10" +:+ "." +:+ "20" +:+ "." +:+ "30")
  = Ok ("30" +:+ "." +:+ "20" +:+ "." +:+ "10" +:+ ".in-addr.arpa").
Proof.
  apply (reverse_zone_ignores_later_fields "10" "20" "30" "0/24");
    reflexivity.
Defined.

(** X15.  For a network with fewer than three dot-separated fields,
    [add_ptr_zone] touches nothing on the host: the run is one log line at
    error level and the exception is
    [PTR zone configuration failed: list index out of range]. *)
Theorem add_ptr_zone_short_network w h network zc :
  (length (split "." network) < 3)%nat ->
  NamedServer.add_ptr_zone network zc w h
  = ([EvLog ERROR ("Failed to add PTR zone for " +:+ network
                   +:+ ": list index out of range")],
     Raise (DNSConfigError
              "PTR zone configuration failed: list index out of range")).
Proof.
  intros Hshort.
  assert (NamedServer.reverse_zone_of network = Raise IndexError) as Hraise.
  { unfold NamedServer.reverse_zone_of.
    destruct (split "." network) as [|a [|b [|c rest]]];
      [reflexivity..|cbn [length] in Hshort; lia]. }
  unfold NamedServer.add_ptr_zone, try_except, mbind, M_bind, bind, lift.
  rewrite Hraise. reflexivity.
Qed.

Lemma add_ptr_zone_short_network_witness :
  NamedServer.add_ptr_zone "192.168" sample_ptr_zone healthy_host []
  = ([EvLog ERROR ("Failed to add PTR zone for " +:+ "192.168"
                   +:+ ": list index out of range")],
     Raise (DNSConfigError
              "PTR zone configuration failed: list index out of range")).
Proof.
  apply add_ptr_zone_short_network. vm_compute. lia.
Defined.

Lemma add_ptr_records_ok records acc content :
  NamedServer.add_ptr_records records acc = Ok content ->
  forallb ptr_renderable records = true.
Proof.
  revert acc. induction records as [|record rest IH]; intros acc; [done|].
  cbn [NamedServer.add_ptr_records forallb]. unfold getitem, ptr_renderable.
  destruct (record !! "ip") as [ip|] eqn:Hi; [|done].
  cbn [mbind result_bind rbind].
  destruct (list_index _ _) as [key|]; [|done].
  cbn [mbind result_bind rbind].
  destruct (record !! "hostname") as [hostname|] eqn:Hh; [|done].
  cbn [mbind result_bind rbind].
  intros Hrest%IH. fold ptr_renderable in Hrest |- *.
  rewrite !bool_decide_eq_true_2 by done. exact Hrest.
Qed.

(** X16.  The reverse zone file can be rendered exactly when every record
    has an [ip] and a [hostname]: the last field of a split is always
    there, so no [ip] makes the loop raise. *)
Theorem ptr_zone_content_ok_iff_renderable reverse_zone serial zc :
  (exists content,
      NamedServer.ptr_zone_content reverse_zone serial zc = Ok content)
  <-> forallb ptr_renderable (records_of zc) = true.
Proof.
  unfold NamedServer.ptr_zone_content. split.
  - intros [content Hc]. by apply add_ptr_records_ok in Hc.
  - intros Hok. rewrite (add_ptr_records_lines _ _ Hok). by eexists.
Qed.

Lemma ptr_zone_content_ok_iff_renderable_witness :
  exists content,
    NamedServer.ptr_zone_content "1.168.192.in-addr.arpa" 1700000000
                                 sample_ptr_zone
    = Ok content.
Proof.
  apply (proj2 (ptr_zone_content_ok_iff_renderable
                  "1.168.192.in-addr.arpa" 1700000000 sample_ptr_zone)).
  vm_compute. reflexivity.
Defined.

(** X17.  The key of a PTR line at the edges: a record whose [ip] holds no
    dot is keyed on the whole [ip], and a record whose [ip] ends with a dot
    gets an empty key. *)
Theorem ptr_key_edges record ip hostname acc :
  record !! "ip" = Some ip ->
  record !! "hostname" = Some hostname ->
  (dot_free ip ->
   NamedServer.add_ptr_records [record] acc
   = Ok (acc +:+ ip +:+ "    IN    PTR    " +:+ hostname +:+ NL))
  /\ (endswith ip "." = true ->
      NamedServer.add_ptr_records [record] acc
      = Ok (acc +:+ "    IN    PTR    " +:+ hostname +:+ NL)).
Proof.
  intros Hi Hh.
  assert (forallb ptr_renderable [record] = true) as Hok.
  { cbn [forallb]. unfold ptr_renderable.
    by rewrite Hi, Hh, !bool_decide_eq_true_2. }
  rewrite (add_ptr_records_lines _ _ Hok).
  cbn [fmap list_fmap]. rewrite lines_text_cons. unfold ptr_line.
  rewrite (field_Some _ _ _ Hi), (field_Some _ _ _ Hh).
  split.
  - intros Hfree. do 2 f_equal.
    assert (after_last_dot ip = ip) as ->; [|by rewrite append_empty_r].
    clear -Hfree. unfold dot_free in Hfree.
    destruct ip as [|c t]; [done|]. cbn [after_last_dot].
    apply str_in_cons_false in Hfree as [Hc Ht].
    rewrite Ht. by destruct (Ascii.eqb c ".").
  - intros [before ->]%endswith_spec. do 2 f_equal.
    change (before +:+ ".") with (before +:+ "." +:+ "").
    rewrite after_last_dot_field by done.
    by rewrite append_empty_r.
Qed.

Lemma ptr_key_edges_witness :
  NamedServer.add_ptr_records
    [ {[ "ip" := "192.168.1."; "hostname" := "host1.example.com." ]} ]
    "; PTR Records"
  = Ok ("; PTR Records" +:+ "    IN    PTR    " +:+ "host1.example.com."
        +:+ NL).
Proof.
  apply (ptr_key_edges
           {[ "ip" := "192.168.1."; "hostname" := "host1.example.com." ]}
           "192.168.1." "host1.example.com." "; PTR Records");
    vm_compute; reflexivity.
Defined.

Lemma add_ptr_zone_uploads_witness :
  (NamedServer.add_ptr_zone "192.168.1.0" sample_ptr_zone healthy_host []).2
  = Ok tt
  /\ forall path mode content reply,
       In (EvWrite path mode content reply)
          (NamedServer.add_ptr_zone "192.168.1.0" sample_ptr_zone
                                    healthy_host []).1 ->
       exists reverse_zone,
         NamedServer.reverse_zone_of "192.168.1.0" = Ok reverse_zone /\
         ((path = NamedServer.zone_file_path reverse_zone /\ mode = ModeW /\
           NamedServer.ptr_zone_content reverse_zone (clock healthy_host [])
                                        sample_ptr_zone = Ok content)
          \/ (path = NamedServer.named_conf /\ mode = ModeA /\
              content = NamedServer.ptr_zone_conf reverse_zone)).
Proof.
  split; [vm_compute; reflexivity|].
  exact (add_ptr_zone_uploads healthy_host [] "192.168.1.0" sample_ptr_zone
           _ _ (surjective_pairing _)).
Defined.

(** X19.  A successful [add_ptr_zone] has issued, in this order, the three
    commands on the reverse zone file, the check of the main configuration
    and the restart; it has uploaded the rendered reverse zone file and
    then appended the stanza, and nothing else. *)
Theorem add_ptr_zone_success_steps w h network zc evs :
  NamedServer.add_ptr_zone network zc w h = (evs, Ok tt) ->
  exists reverse_zone content,
    NamedServer.reverse_zone_of network = Ok reverse_zone
    /\ NamedServer.ptr_zone_content reverse_zone (clock w h) zc = Ok content
    /\ commands_of evs
       = ["chown root:named " +:+ NamedServer.zone_file_path reverse_zone;
          "chmod 640 " +:+ NamedServer.zone_file_path reverse_zone;
          "restorecon -v " +:+ NamedServer.zone_file_path reverse_zone;
          "named-checkconf";
          NamedServer.restart_command]
    /\ omap (fun ev => match ev with
                       | EvWrite path mode text _ => Some (path, mode, text)
                       | _ => None
                       end) evs
       = [(NamedServer.zone_file_path reverse_zone, ModeW, content);
          (NamedServer.named_conf, ModeA,
           NamedServer.ptr_zone_conf reverse_zone)].
Proof.
  unfold NamedServer.add_ptr_zone. intros Hrun.
  run_inv; rewrite ?app_nil_r in *; eexists _, _; eauto.
Qed.

Lemma add_ptr_zone_success_steps_witness :
  exists reverse_zone content,
    NamedServer.reverse_zone_of "192.168.1.0" = Ok reverse_zone
    /\ NamedServer.ptr_zone_content reverse_zone (clock healthy_host [])
                                    sample_ptr_zone = Ok content
    /\ commands_of
         (NamedServer.add_ptr_zone "192.168.1.0" sample_ptr_zone
                                   healthy_host []).1
       = ["chown root:named " +:+ NamedServer.zone_file_path reverse_zone;
          "chmod 640 " +:+ NamedServer.zone_file_path reverse_zone;
          "restorecon -v " +:+ NamedServer.zone_file_path reverse_zone;
          "named-checkconf";
          NamedServer.restart_command]
    /\ omap (fun ev => match ev with
                       | EvWrite path mode text _ => Some (path, mode, text)
                       | _ => None
                       end)
            (NamedServer.add_ptr_zone "192.168.1.0" sample_ptr_zone
                                      healthy_host []).1
       = [(NamedServer.zone_file_path reverse_zone, ModeW, content);
          (NamedServer.named_conf, ModeA,
           NamedServer.ptr_zone_conf reverse_zone)].
Proof.
  apply (add_ptr_zone_success_steps healthy_host [] "192.168.1.0"
           sample_ptr_zone).
  vm_compute. reflexivity.
Defined.

(** X20.  Unlike [add_zone], [add_ptr_zone] never runs the zone-file
    checker: no command of any of its runs starts with
    [named-checkzone]. *)
Theorem add_ptr_zone_never_checks_zone_file w h network zc evs r :
  NamedServer.add_ptr_zone network zc w h = (evs, r) ->
  forall command,
    In command (commands_of evs) ->
    String.prefix "named-checkzone" command = false.
Proof.
  unfold NamedServer.add_ptr_zone. intros Hrun command Hin.
  run_inv; cbn [commands_of omap list_omap app In] in Hin;
    repeat (destruct Hin as [<-|Hin]; [reflexivity|]); destruct Hin.
Qed.

Lemma add_ptr_zone_never_checks_zone_file_witness :
  commands_of
    (NamedServer.add_ptr_zone "192.168.1.0" sample_ptr_zone healthy_host []).1
  <> []
  /\ forall command,
       In command
          (commands_of (NamedServer.add_ptr_zone "192.168.1.0" sample_ptr_zone
                                                 healthy_host []).1) ->
       String.prefix "named-checkzone" command = false.
Proof.
  split; [vm_compute; discriminate|].
  exact (add_ptr_zone_never_checks_zone_file healthy_host [] "192.168.1.0"
           sample_ptr_zone _ _ (surjective_pairing _)).
Defined.

(* ===================================================================== *)
(** ** [delete_zone] *)
(* ===================================================================== *)

Lemma run_re_sub pattern content w h evs r :
  re_sub_empty pattern content w h = (evs, r) ->
  evs = [] /\
  r = Raise match Re.compile pattern with
            | Some _ => TypeError text_pattern_on_bytes
            | None => re_outside w pattern
            end.
Proof.
  unfold re_sub_empty. destruct (Re.compile pattern); by intros [= <- <-].
Qed.

Ltac run_more :=
  repeat first
    [ run_step
    | match goal with
      | H : re_sub_empty _ _ _ _ = (_, _) |- _ =>
          apply run_re_sub in H; destruct H; simplify_eq
      end ].

(** X21.  When the download of the main configuration fails, [delete_zone]
    has already removed the zone file, which is the only command it
    issued; it uploads nothing and raises [Zone deletion failed: ...]
    around the message of the failure. *)
Theorem delete_zone_read_failure w h zone_name evs r e :
  NamedServer.delete_zone zone_name w h = (evs, r) ->
  In (EvRead NamedServer.named_conf (Raise e)) evs ->
  commands_of evs = ["rm -f " +:+ NamedServer.zone_file_path zone_name]
  /\ no_upload evs
  /\ r = Raise (DNSConfigError ("Zone deletion failed: " +:+ str_exn e)).
Proof.
  unfold NamedServer.delete_zone, no_upload. intros Hrun Hin.
  run_more; split_in Hin; simplify_eq.
  split; [reflexivity|]. split; [|reflexivity].
  intros path mode content reply Hw. split_in Hw.
Qed.

Lemma delete_zone_read_failure_witness :
  commands_of (NamedServer.delete_zone "example.com" unreadable_host []).1
  = ["rm -f " +:+ NamedServer.zone_file_path "example.com"]
  /\ no_upload (NamedServer.delete_zone "example.com" unreadable_host []).1
  /\ (NamedServer.delete_zone "example.com" unreadable_host []).2
     = Raise (DNSConfigError
                ("Zone deletion failed: "
                 +:+ str_exn (LibraryError "Permission denied"))).
Proof.
  apply (delete_zone_read_failure unreadable_host [] "example.com" _ _
           (LibraryError "Permission denied") (surjective_pairing _)).
  vm_compute. tauto.
Defined.

(** *** The pattern of a zone name is well formed *)

Lemma tokens_literal c rest :
  literal_char c = true ->
  Re.tokens (String c rest)
  = option_map (cons (Re.TAtom (Re.Lit c))) (Re.tokens rest).
Proof.
  unfold literal_char. intros H%negb_true_iff.
  repeat apply orb_false_iff in H as [H ?].
  cbn [Re.tokens].
  by repeat match goal with E : _ = false |- _ => rewrite E; clear E end.
Qed.

Lemma literal_char_atom c : literal_char c = true -> atom_of c = Re.Lit c.
Proof.
  unfold literal_char, atom_of. intros H%negb_true_iff.
  repeat apply orb_false_iff in H as [H ?]. by rewrite H.
Qed.

Lemma tokens_atoms s rest :
  all_chars name_char s = true ->
  Re.tokens (s +:+ rest) = option_map (app (atom_tokens s)) (Re.tokens rest).
Proof.
  unfold name_char. induction s as [|c s IH]; cbn [all_chars].
  - intros _. rewrite append_nil_l. by destruct (Re.tokens rest).
  - intros [Hc Hs]%andb_true_iff. rewrite append_cons. cbn [atom_tokens].
    destruct (Ascii.eqb_spec c ".") as [->|Hne].
    + cbn [Re.tokens]. cbn [Ascii.eqb Bool.eqb]. rewrite (IH Hs).
      by destruct (Re.tokens rest).
    + cbn [orb] in Hc. rewrite (tokens_literal _ _ Hc), (IH Hs).
      rewrite (literal_char_atom _ Hc). by destruct (Re.tokens rest).
Qed.

Lemma items_atoms s ts :
  match ts with Re.TPlus :: _ => False | _ => True end ->
  Re.items (atom_tokens s ++ ts) = option_map (app (atoms s)) (Re.items ts).
Proof.
  intros Hts. induction s as [|c s IH].
  - cbn. by destruct (Re.items ts).
  - cbn [atom_tokens atoms app Re.items]. rewrite IH.
    destruct s as [|c' s].
    + cbn [atom_tokens app]. destruct ts as [|[a|] ts]; [| |done];
        by destruct (Re.items _).
    + cbn [atom_tokens app]. by destruct (Re.items ts).
Qed.

Lemma atoms_app a b : atoms (a +:+ b) = atoms a ++ atoms b.
Proof.
  induction a as [|c a IH]; [done|].
  rewrite append_cons. cbn [atoms app]. by rewrite IH.
Qed.

(** For a zone name of name characters the pattern is in the fragment, so
    [re] compiles it. *)
Lemma compile_zone_pattern zone_name :
  all_chars name_char zone_name = true ->
  Re.compile (NamedServer.zone_pattern zone_name)
  = Some (stanza_regex zone_name).
Proof.
  intros Hname.
  unfold Re.compile, NamedServer.zone_pattern, stanza_regex, stanza_head.
  assert (("zone " +:+ DQ +:+ zone_name +:+ DQ +:+ " IN {[^}]+};")
          = ("zone " +:+ DQ) +:+ zone_name +:+ (DQ +:+ " IN ") +:+ "{[^}]+};")
    as -> by (by rewrite !append_assoc).
  rewrite (tokens_atoms ("zone " +:+ DQ)) by reflexivity.
  rewrite (tokens_atoms zone_name) by done.
  rewrite (tokens_atoms (DQ +:+ " IN ")) by reflexivity.
  change (Re.tokens "{[^}]+};")
    with (Some [Re.TAtom (Re.Lit "{"); Re.TAtom (Re.NotChar "}"); Re.TPlus;
                Re.TAtom (Re.Lit "}"); Re.TAtom (Re.Lit ";")]).
  cbn [option_map].
  rewrite (items_atoms ("zone " +:+ DQ)).
  2:{ by destruct zone_name. }
  rewrite (items_atoms zone_name) by done.
  rewrite (items_atoms (DQ +:+ " IN ")) by done.
  cbn [Re.items option_map]. f_equal.
  assert (("zone " +:+ DQ +:+ zone_name +:+ DQ +:+ " IN {")
          = ("zone " +:+ DQ) +:+ zone_name +:+ (DQ +:+ " IN ") +:+ "{")
    as -> by (by rewrite !append_assoc).
  rewrite !atoms_app. rewrite <- !app_assoc. reflexivity.
Qed.

(** *** What [delete_zone] does with a downloaded configuration *)

(** X22.  For a zone name of name characters, a [delete_zone] whose
    download of the main configuration succeeds is exactly three steps: the
    removal of the zone file, the download, and one log line at error
    level.  The downloaded bytes are handed to [re.sub] with a text
    pattern, which raises; the call ends in the configuration error
    [Zone deletion failed: cannot use a string pattern on a bytes-like
    object]. *)
Theorem delete_zone_stops_after_download w h zone_name evs r content :
  all_chars name_char zone_name = true ->
  NamedServer.delete_zone zone_name w h = (evs, r) ->
  In (EvRead NamedServer.named_conf (Ok content)) evs ->
  (exists removed,
      evs = [EvExec ("rm -f " +:+ NamedServer.zone_file_path zone_name)
                    (Ok removed);
             EvRead NamedServer.named_conf (Ok content);
             EvLog ERROR
               ("Failed to delete zone " +:+ zone_name +:+ ": "
                +:+ "cannot use a string pattern on a bytes-like object")])
  /\ r = Raise (DNSConfigError
                  ("Zone deletion failed: "
                   +:+ "cannot use a string pattern on a bytes-like object")).
Proof.
  unfold NamedServer.delete_zone. intros Hname Hrun Hin.
  run_more; rewrite ?(compile_zone_pattern _ Hname) in *;
    split_in Hin; simplify_eq.
  split; [by eexists|reflexivity].
Qed.

Lemma delete_zone_stops_after_download_witness :
  (exists removed,
      (NamedServer.delete_zone "example.com"
                               (scripted_host [] sample_conf) []).1
      = [EvExec ("rm -f " +:+ NamedServer.zone_file_path "example.com")
                (Ok removed);
         EvRead NamedServer.named_conf (Ok (encode sample_conf));
         EvLog ERROR
           ("Failed to delete zone " +:+ "example.com" +:+ ": "
            +:+ "cannot use a string pattern on a bytes-like object")])
  /\ (NamedServer.delete_zone "example.com"
                              (scripted_host [] sample_conf) []).2
     = Raise (DNSConfigError
                ("Zone deletion failed: "
                 +:+ "cannot use a string pattern on a bytes-like object")).
Proof.
  apply (delete_zone_stops_after_download
           (scripted_host [] sample_conf) [] "example.com" _ _
           (encode sample_conf) eq_refl (surjective_pairing _)).
  vm_compute. tauto.
Defined.

(** X23.  No run of [delete_zone] uploads anything or restarts the
    service, and none returns normally: whatever the host answers and
    whatever the zone name, the only command issued is the removal of the
    zone file, the main configuration stays as it is on the host, and the
    call raises the configuration error. *)
Theorem delete_zone_never_rewrites_configuration w h zone_name evs r :
  NamedServer.delete_zone zone_name w h = (evs, r) ->
  no_upload evs
  /\ commands_of evs = ["rm -f " +:+ NamedServer.zone_file_path zone_name]
  /\ raises_config_error r.
Proof.
  unfold NamedServer.delete_zone, no_upload, raises_config_error.
  intros Hrun. run_more;
    (split; [intros path mode content reply Hw; split_in Hw|]);
    (split; [reflexivity|]); by eexists.
Qed.

Lemma delete_zone_never_rewrites_configuration_witness :
  no_upload (NamedServer.delete_zone "example.com" healthy_host []).1
  /\ commands_of (NamedServer.delete_zone "example.com" healthy_host []).1
     = ["rm -f " +:+ NamedServer.zone_file_path "example.com"]
  /\ raises_config_error
       (NamedServer.delete_zone "example.com" healthy_host []).2.
Proof.
  exact (delete_zone_never_rewrites_configuration
           healthy_host [] "example.com" _ _ (surjective_pairing _)).
Defined.
